(** * gojws: verification of JWS compact serializations

    A shallow embedding of [jws.go] (package [gojws]) and the properties of
    [VerifyAndDecode] that its specification states.

    Go strings are byte sequences and are modelled by [string]; [[]byte]
    values are modelled by [list byte].  A Go [error] is modelled by the text
    its [Error()] method returns. *)

From Stdlib Require Import Strings.String Strings.Ascii Strings.Byte List ZArith Bool Lia.
Import ListNotations.
Open Scope string_scope.

(** ** Go values used by the package *)

(** A Go pointer: either [nil] or the address of a value. *)
Inductive ptr (A : Type) : Type :=
| nil_ptr : ptr A
| ref : A -> ptr A.
Arguments nil_ptr {A}.
Arguments ref {A} _.

Definition error := string.

(** [errors.New] and [fmt.Errorf] build an error out of its message; [None]
    is the [nil] error. *)
Definition errors_New (msg : string) : option error := Some msg.
Definition fmt_Errorf (msg : string) : option error := Some msg.

(** [type Algorithm string] and its five constants. *)
Definition Algorithm := string.
Definition ALG_NONE : Algorithm := "none".
Definition ALG_HS256 : Algorithm := "HS256".
Definition ALG_RS256 : Algorithm := "RS256".
Definition ALG_ES256 : Algorithm := "ES256".
Definition ALG_ES512 : Algorithm := "ES512".

(** [type NoneKeyType int] and [const NoneKey = NoneKeyType(0)]. *)
Definition NoneKeyType := Z.
Definition NoneKey : NoneKeyType := 0%Z.

(** Key structures of [crypto/rsa], [crypto/ecdsa] and [crypto/elliptic]. *)
Record elliptic_CurveParams := {
  curve_P : Z; curve_N : Z; curve_B : Z;
  curve_Gx : Z; curve_Gy : Z; curve_BitSize : Z
}.
Record rsa_PublicKey := { rsa_N : Z; rsa_E : Z }.
Record rsa_PrivateKey := {
  rsa_PublicKey_of : rsa_PublicKey; rsa_D : Z; rsa_Primes : list Z
}.
Record ecdsa_PublicKey := {
  ecdsa_Curve : elliptic_CurveParams; ecdsa_X : Z; ecdsa_Y : Z
}.
Record ecdsa_PrivateKey := {
  ecdsa_PublicKey_of : ecdsa_PublicKey; ecdsa_D : Z
}.

(** [crypto.PublicKey] is [interface{}]: a value together with its dynamic
    type.  The constructors are the dynamic types that [VerifyAndDecode]
    tells apart; every other dynamic type is [K_other], which carries the
    name that [%T] prints. *)
Inductive PublicKey :=
| K_nil
| K_NoneKeyType (n : NoneKeyType)
| K_bytes (b : list byte)
| K_rsa_PublicKey (p : ptr rsa_PublicKey)
| K_rsa_PrivateKey (p : ptr rsa_PrivateKey)
| K_ecdsa_PublicKey (p : ptr ecdsa_PublicKey)
| K_ecdsa_PrivateKey (p : ptr ecdsa_PrivateKey)
| K_other (type_name : string).

(** The text of the [%T] verb. *)
Definition fmt_T (key : PublicKey) : string :=
  match key with
  | K_nil => "<nil>"
  | K_NoneKeyType _ => "gojws.NoneKeyType"
  | K_bytes _ => "[]uint8"
  | K_rsa_PublicKey _ => "*rsa.PublicKey"
  | K_rsa_PrivateKey _ => "*rsa.PrivateKey"
  | K_ecdsa_PublicKey _ => "*ecdsa.PublicKey"
  | K_ecdsa_PrivateKey _ => "*ecdsa.PrivateKey"
  | K_other t => t
  end.

(** [key != NoneKey]: two interface values are equal when their dynamic
    types and their values are. *)
Definition key_is_NoneKey (key : PublicKey) : bool :=
  match key with
  | K_NoneKeyType n => Z.eqb n NoneKey
  | _ => false
  end.

(** ** The JWS header *)

Record Header := {
  Alg : Algorithm;
  Typ : string;
  Cty : string;
  Jku : string;
  Jwk : string;
  X5u : string;
  X5t : string;
  X5c : string;
  Kid : string
}.

(** [var header Header]: the zero value. *)
Definition zero_Header : Header :=
  {| Alg := EmptyString; Typ := EmptyString; Cty := EmptyString;
     Jku := EmptyString; Jwk := EmptyString; X5u := EmptyString;
     X5t := EmptyString; X5c := EmptyString; Kid := EmptyString |}.

(** The fields of [Header] in declaration order, each with the name given by
    its [json] struct tag. *)
Inductive HeaderField :=
| F_Alg | F_Typ | F_Cty | F_Jku | F_Jwk | F_X5u | F_X5t | F_X5c | F_Kid.

Definition Header_tags : list (HeaderField * string) :=
  [ (F_Alg, "alg"); (F_Typ, "typ"); (F_Cty, "typ"); (F_Jku, "jku");
    (F_Jwk, "jkw"); (F_X5u, "x5u"); (F_X5t, "x5t"); (F_X5c, "x5c");
    (F_Kid, "kid") ].

Definition set_field (f : HeaderField) (v : string) (h : Header) : Header :=
  match f with
  | F_Alg => {| Alg := v; Typ := Typ h; Cty := Cty h; Jku := Jku h; Jwk := Jwk h;
                X5u := X5u h; X5t := X5t h; X5c := X5c h; Kid := Kid h |}
  | F_Typ => {| Alg := Alg h; Typ := v; Cty := Cty h; Jku := Jku h; Jwk := Jwk h;
                X5u := X5u h; X5t := X5t h; X5c := X5c h; Kid := Kid h |}
  | F_Cty => {| Alg := Alg h; Typ := Typ h; Cty := v; Jku := Jku h; Jwk := Jwk h;
                X5u := X5u h; X5t := X5t h; X5c := X5c h; Kid := Kid h |}
  | F_Jku => {| Alg := Alg h; Typ := Typ h; Cty := Cty h; Jku := v; Jwk := Jwk h;
                X5u := X5u h; X5t := X5t h; X5c := X5c h; Kid := Kid h |}
  | F_Jwk => {| Alg := Alg h; Typ := Typ h; Cty := Cty h; Jku := Jku h; Jwk := v;
                X5u := X5u h; X5t := X5t h; X5c := X5c h; Kid := Kid h |}
  | F_X5u => {| Alg := Alg h; Typ := Typ h; Cty := Cty h; Jku := Jku h; Jwk := Jwk h;
                X5u := v; X5t := X5t h; X5c := X5c h; Kid := Kid h |}
  | F_X5t => {| Alg := Alg h; Typ := Typ h; Cty := Cty h; Jku := Jku h; Jwk := Jwk h;
                X5u := X5u h; X5t := v; X5c := X5c h; Kid := Kid h |}
  | F_X5c => {| Alg := Alg h; Typ := Typ h; Cty := Cty h; Jku := Jku h; Jwk := Jwk h;
                X5u := X5u h; X5t := X5t h; X5c := v; Kid := Kid h |}
  | F_Kid => {| Alg := Alg h; Typ := Typ h; Cty := Cty h; Jku := Jku h; Jwk := Jwk h;
                X5u := X5u h; X5t := X5t h; X5c := X5c h; Kid := v |}
  end.

(** The Go type of a field, as [encoding/json] prints it. *)
Definition field_type_name (f : HeaderField) : string :=
  match f with
  | F_Alg => "gojws.Algorithm"
  | _ => "string"
  end.

(** ** [strings.Split(s, sep)] for a one-byte separator *)

Fixpoint strings_Split (s : string) (sep : ascii) : list string :=
  match s with
  | EmptyString => [EmptyString]
  | String c rest =>
      if Ascii.eqb c sep then EmptyString :: strings_Split rest sep
      else match strings_Split rest sep with
           | [] => [String c EmptyString]
           | seg :: segs => String c seg :: segs
           end
  end.

Definition dot : ascii := "."%char.

(** ** [encoding/json]: storing a parsed value into a [Header]

    [json.Unmarshal] first scans its input (a syntax error stops it there),
    and then stores the value into the destination.  The scanner is a
    parameter of the development; a parsed value is a [JSON] tree. *)

#[local] Unset Elimination Schemes.
Inductive JSON :=
| J_null
| J_bool (b : bool)
| J_number (literal : string)
| J_string (s : string)
| J_array (elements : list JSON)
| J_object (members : list (string * JSON)).
#[local] Set Elimination Schemes.

(** The word [encoding/json] uses for a value in an [UnmarshalTypeError]. *)
Definition json_kind (v : JSON) : string :=
  match v with
  | J_null => "null"
  | J_bool _ => "bool"
  | J_number _ => "number"
  | J_string _ => "string"
  | J_array _ => "array"
  | J_object _ => "object"
  end.

Definition count_tag (name : string) (tags : list (HeaderField * string)) : nat :=
  length (filter (fun ft => String.eqb (snd ft) name) tags).

(** [typeFields]: the fields the decoder knows.  Several fields of one
    struct that carry the same tag name hide each other ([dominantField]
    finds no winner among them), and none of them is kept. *)
Definition typeFields : list (HeaderField * string) :=
  filter (fun ft => Nat.eqb (count_tag (snd ft) Header_tags) 1) Header_tags.

Definition byte_E2 : ascii := ascii_of_nat 226.
Definition byte_84 : ascii := ascii_of_nat 132.
Definition byte_AA : ascii := ascii_of_nat 170.
Definition byte_C5 : ascii := ascii_of_nat 197.
Definition byte_BF : ascii := ascii_of_nat 191.

Definition ascii_upper (c : ascii) : ascii :=
  let n := nat_of_ascii c in
  if (Nat.leb 97 n && Nat.leb n 122)%bool then ascii_of_nat (n - 32) else c.

(** [foldName]: ASCII letters fold to upper case; the Kelvin sign (U+212A)
    folds to [K] and the long s (U+017F) to [S]; these are the only runes
    outside ASCII whose fold is an ASCII letter. *)
Fixpoint foldName (s : string) : string :=
  match s with
  | EmptyString => EmptyString
  | String c rest =>
      match rest with
      | EmptyString => String (ascii_upper c) EmptyString
      | String c2 rest2 =>
          if (Ascii.eqb c byte_C5 && Ascii.eqb c2 byte_BF)%bool
          then String "S"%char (foldName rest2)
          else
            match rest2 with
            | EmptyString => String (ascii_upper c) (foldName rest)
            | String c3 rest3 =>
                if (Ascii.eqb c byte_E2 && Ascii.eqb c2 byte_84
                    && Ascii.eqb c3 byte_AA)%bool
                then String "K"%char (foldName rest3)
                else String (ascii_upper c) (foldName rest)
            end
      end
  end.

(** The field an object key selects: an exact match of the name first, a
    match under case folding otherwise. *)
Definition find_field (key : string) : option HeaderField :=
  match find (fun ft => String.eqb (snd ft) key) typeFields with
  | Some ft => Some (fst ft)
  | None =>
      match find (fun ft => String.eqb (foldName (snd ft)) (foldName key))
                 typeFields with
      | Some ft => Some (fst ft)
      | None => None
      end
  end.

Definition field_name (f : HeaderField) : string :=
  match find (fun ft =>
                match fst ft, f with
                | F_Alg, F_Alg | F_Typ, F_Typ | F_Cty, F_Cty | F_Jku, F_Jku
                | F_Jwk, F_Jwk | F_X5u, F_X5u | F_X5t, F_X5t | F_X5c, F_X5c
                | F_Kid, F_Kid => true
                | _, _ => false
                end) Header_tags with
  | Some ft => snd ft
  | None => EmptyString
  end.

Definition UnmarshalTypeError_field (v : JSON) (f : HeaderField) : error :=
  "json: cannot unmarshal " ++ json_kind v ++ " into Go struct field Header."
    ++ field_name f ++ " of type " ++ field_type_name f.

Definition UnmarshalTypeError_value (v : JSON) : error :=
  "json: cannot unmarshal " ++ json_kind v ++ " into Go value of type gojws.Header".

(** [saveError] keeps the first error. *)
Definition saveError (saved : option error) (e : error) : option error :=
  match saved with
  | Some _ => saved
  | None => Some e
  end.

(** The members of an object are stored in order.  A string is stored into
    the field its key selects; [null] leaves the field as it is; any other
    value is a type error, which is saved while decoding goes on.  A key
    that selects no field is skipped. *)
Fixpoint decode_object (members : list (string * JSON)) (h : Header)
    (saved : option error) : Header * option error :=
  match members with
  | [] => (h, saved)
  | (key, v) :: rest =>
      match find_field key with
      | None => decode_object rest h saved
      | Some f =>
          match v with
          | J_string s => decode_object rest (set_field f s h) saved
          | J_null => decode_object rest h saved
          | _ => decode_object rest h
                   (saveError saved (UnmarshalTypeError_field v f))
          end
      end
  end.

(** Storing a value into a struct: an object is decoded member by member,
    [null] is a no-op, anything else is a type error. *)
Definition decode_value (v : JSON) (h : Header) : Header * option error :=
  match v with
  | J_object members => decode_object members h None
  | J_null => (h, None)
  | _ => (h, Some (UnmarshalTypeError_value v))
  end.

(** ** Hash objects and big integers *)

(** A [hash.Hash] is the function it computes and the bytes written to it
    so far.  [hmac.New(sha256.New, key)] is the function [HMAC_SHA256 key]. *)
Inductive hash_function :=
| SHA256
| SHA512
| HMAC_SHA256 (key : list byte).

Record hash_Hash := {
  hash_fn : hash_function;
  hash_written : list byte
}.

Definition hash_New (f : hash_function) : hash_Hash :=
  {| hash_fn := f; hash_written := [] |}.

Definition io_WriteString (h : hash_Hash) (s : string) : hash_Hash :=
  {| hash_fn := hash_fn h;
     hash_written := hash_written h ++ list_byte_of_string s |}.

(** [big.Int.SetBytes]: the bytes of a big-endian unsigned integer. *)
Definition big_SetBytes (b : list byte) : Z :=
  fold_left (fun acc x => (acc * 256 + Z.of_N (Byte.to_N x))%Z) b 0%Z.

(** [hmac.Equal]: equality of two byte slices. *)
Definition hmac_Equal (a b : list byte) : bool :=
  if list_eq_dec Byte.byte_eq_dec a b then true else false.

(** ** What a call does to its environment

    The engine has no state of its own.  What a call of [VerifyAndDecode]
    can change is the state of the Key Provider it is given; what it asks of
    the provider and of the [crypto] packages is recorded, in order, as a
    trace of events. *)

Inductive Event :=
| E_GetJWSKey (h : Header)
| E_Sum (f : hash_function) (input : list byte)
| E_rsa_VerifyPKCS1v15 (pub : ptr rsa_PublicKey) (hashed sig : list byte)
| E_SetBytes (b : list byte)
| E_ecdsa_Verify (pub : ptr ecdsa_PublicKey) (hash : list byte) (r s : Z).

Record World (S : Type) := {
  provider_state : S;
  trace : list Event
}.
Arguments provider_state {S} _.
Arguments trace {S} _.

Definition record {S : Type} (e : Event) (w : World S) : World S :=
  {| provider_state := provider_state w; trace := trace w ++ [e] |}.

(** [type KeyProvider interface]: one method, which may read and change the
    provider's own state, and returns a key and an error. *)
Record KeyProvider (S : Type) := {
  GetJWSKey : Header -> S -> (PublicKey * option error) * S
}.
Arguments GetJWSKey {S} _ _ _.

(** [ProviderFromKey] and the [singleKey] it returns. *)
Definition ProviderFromKey {S : Type} (key : PublicKey) : KeyProvider S :=
  {| GetJWSKey := fun _ s => ((key, None), s) |}.

(** How a call of [VerifyAndDecode] ends: it returns its two results, the
    payload ([None] is the [nil] slice) and the error ([None] is [nil]), or
    it panics. *)
Inductive Completion :=
| Returns (payload : option (list byte)) (err : option error)
| Panics (v : string).

Definition nil_dereference : string :=
  "runtime error: invalid memory address or nil pointer dereference".

(** ** The verification engine *)

Section Engine.

(** The state of the Key Provider. *)
Variable S : Type.

(** [safeDecode], the decoder of one segment of the compact serialization;
    it is defined in another file of the package. *)
Variable safeDecode : string -> list byte * option error.

(** The scanner of [encoding/json]: the value its input denotes, or a
    syntax error. *)
Variable json_scan : list byte -> JSON + error.

(** [crypto/sha256], [crypto/sha512], [crypto/hmac], [crypto/rsa] and
    [crypto/ecdsa]. *)
Variable sha256_Sum : list byte -> list byte.
Variable sha512_Sum : list byte -> list byte.
Variable hmac_sha256_Sum : list byte -> list byte -> list byte.
Variable rsa_VerifyPKCS1v15 :
  rsa_PublicKey -> list byte -> list byte -> option error.
Variable ecdsa_Verify : ecdsa_PublicKey -> list byte -> Z -> Z -> bool.

(** [json.Unmarshal(data, &header)]. *)
Definition json_Unmarshal (data : list byte) (h : Header)
  : Header * option error :=
  match json_scan data with
  | inr e => (h, Some e)
  | inl v => decode_value v h
  end.

Definition digest (f : hash_function) (input : list byte) : list byte :=
  match f with
  | SHA256 => sha256_Sum input
  | SHA512 => sha512_Sum input
  | HMAC_SHA256 key => hmac_sha256_Sum key input
  end.

(** [h.Sum(nil)]. *)
Definition hash_Sum (h : hash_Hash) (w : World S) : list byte * World S :=
  (digest (hash_fn h) (hash_written h),
   record (E_Sum (hash_fn h) (hash_written h)) w).

(** [kp.GetJWSKey(header)]. *)
Definition call_GetJWSKey (kp : KeyProvider S) (h : Header) (w : World S)
  : (PublicKey * option error) * World S :=
  let (r, s) := GetJWSKey kp h (provider_state w) in
  (r, {| provider_state := s; trace := trace w ++ [E_GetJWSKey h] |}).

Definition VerifyAndDecode (jws : string) (kp : KeyProvider S) (w : World S)
  : Completion * World S :=
  let parts := strings_Split jws dot in
  if negb (Nat.eqb (length parts) 3) then
    (Returns None (errors_New "Malformed JWS"), w)
  else
  let parts0 := nth 0 parts EmptyString in
  let parts1 := nth 1 parts EmptyString in
  let parts2 := nth 2 parts EmptyString in
  (* decode the JWS header *)
  let header := zero_Header in
  let (data, err) := safeDecode parts0 in
  match err with
  | Some e => (Returns None (fmt_Errorf ("Malformed JWS header: " ++ e)), w)
  | None =>
  let (header, err) := json_Unmarshal data header in
  match err with
  | Some e => (Returns None (fmt_Errorf ("Failed to decode header: " ++ e)), w)
  | None =>
  (* acquire the public key *)
  let '((key, err), w) := call_GetJWSKey kp header w in
  match err with
  | Some e =>
      (Returns None (fmt_Errorf ("Failed to acquire public key: " ++ e)), w)
  | None =>
  (* validate the signature *)
  let (signature, err) := safeDecode parts2 in
  match err with
  | Some e =>
      (Returns None (fmt_Errorf ("Malformed JWS signature: " ++ e)), w)
  | None =>
  (* decode the payload: the statements after the switch *)
  let decode_payload (w : World S) : Completion * World S :=
    let (payload, err) := safeDecode parts1 in
    match err with
    | Some e =>
        (Returns None (fmt_Errorf ("Malformed JWS payload: " ++ e)), w)
    | None => (Returns (Some payload) None, w)
    end in
  if String.eqb (Alg header) ALG_NONE then
    (* only allow plaintext if the caller explicitly passed in the
       "none" public key *)
    if negb (key_is_NoneKey key) then
      (Returns None (errors_New "Refusing to validate plaintext JWS"), w)
    else decode_payload w
  else if String.eqb (Alg header) ALG_HS256 then
    match key with
    | K_bytes symmetricKey =>
        let hm := hash_New (HMAC_SHA256 symmetricKey) in
        let hm := io_WriteString hm parts0 in
        let hm := io_WriteString hm "." in
        let hm := io_WriteString hm parts1 in
        let (expectedSignature, w) := hash_Sum hm w in
        if negb (hmac_Equal expectedSignature signature) then
          (Returns None (fmt_Errorf "Signature verification failed"), w)
        else decode_payload w
    | _ =>
        (Returns None
           (fmt_Errorf ("Expected symmetric ([]byte) key. Got " ++ fmt_T key)),
         w)
    end
  else if String.eqb (Alg header) ALG_RS256 then
    let with_pubKey (pubKey : ptr rsa_PublicKey) : Completion * World S :=
      (* generate hashed input *)
      let hs := hash_New SHA256 in
      let hs := io_WriteString hs parts0 in
      let hs := io_WriteString hs "." in
      let hs := io_WriteString hs parts1 in
      let (hashed, w) := hash_Sum hs w in
      let w := record (E_rsa_VerifyPKCS1v15 pubKey hashed signature) w in
      match pubKey with
      | nil_ptr => (Panics nil_dereference, w)
      | ref pub =>
          match rsa_VerifyPKCS1v15 pub hashed signature with
          | Some _ =>
              (Returns None (fmt_Errorf "Signature verification failed"), w)
          | None => decode_payload w
          end
      end in
    match key with
    | K_rsa_PublicKey pubKey => with_pubKey pubKey
    | K_rsa_PrivateKey privKey =>
        match privKey with
        | nil_ptr => (Panics nil_dereference, w)
        | ref priv => with_pubKey (ref (rsa_PublicKey_of priv))
        end
    | _ =>
        (Returns None (fmt_Errorf ("Expected RSA key. Got " ++ fmt_T key)), w)
    end
  else if (String.eqb (Alg header) ALG_ES256
           || String.eqb (Alg header) ALG_ES512)%bool then
    let with_pubKey (pubKey : ptr ecdsa_PublicKey) : Completion * World S :=
      let sizes : option (hash_Hash * nat * nat) :=
        if String.eqb (Alg header) ALG_ES256 then
          Some (hash_New SHA256, 32, 32)
        else if String.eqb (Alg header) ALG_ES512 then
          Some (hash_New SHA512, 66, 66)
        else None in
      match sizes with
      | None => (Panics ("Alorithm logic error with " ++ Alg header), w)
      | Some (hs, rSize, sSize) =>
          (* split signature into R and S *)
          if negb (Nat.eqb (length signature) (rSize + sSize)) then
            (Returns None (fmt_Errorf "Signature verification failed"), w)
          else
          let w := record (E_SetBytes (firstn rSize signature)) w in
          let r := big_SetBytes (firstn rSize signature) in
          let w := record (E_SetBytes (skipn rSize signature)) w in
          let s := big_SetBytes (skipn rSize signature) in
          (* generate hashed input *)
          let hs := io_WriteString hs parts0 in
          let hs := io_WriteString hs "." in
          let hs := io_WriteString hs parts1 in
          let (hashed, w) := hash_Sum hs w in
          let w := record (E_ecdsa_Verify pubKey hashed r s) w in
          match pubKey with
          | nil_ptr => (Panics nil_dereference, w)
          | ref pub =>
              if negb (ecdsa_Verify pub hashed r s) then
                (Returns None (fmt_Errorf "Signature verification failed"), w)
              else decode_payload w
          end
      end in
    match key with
    | K_ecdsa_PublicKey pubKey => with_pubKey pubKey
    | K_ecdsa_PrivateKey privKey =>
        match privKey with
        | nil_ptr => (Panics nil_dereference, w)
        | ref priv => with_pubKey (ref (ecdsa_PublicKey_of priv))
        end
    | _ =>
        (Returns None (fmt_Errorf ("Expected ECDSA key. Got " ++ fmt_T key)),
         w)
    end
  else
    (Returns None
       (fmt_Errorf ("Unknown signature algorithm: " ++ Alg header)), w)
  end end end end.

End Engine.

(** ** A decoder for the segments

    Modelled from the spec: [safeDecode] is called by [VerifyAndDecode] but
    is defined outside of [jws.go].  The spec describes it as the decoder of
    URL-safe base64 that accepts padded and unpadded input alike, and rejects
    characters outside the URL-safe alphabet and malformed padding. *)

Definition base64url_value (c : ascii) : option N :=
  let n := N_of_ascii c in
  if (N.leb 65 n && N.leb n 90)%bool then Some (n - 65)%N
  else if (N.leb 97 n && N.leb n 122)%bool then Some (n - 97 + 26)%N
  else if (N.leb 48 n && N.leb n 57)%bool then Some (n - 48 + 52)%N
  else if N.eqb n 45 then Some 62%N
  else if N.eqb n 95 then Some 63%N
  else None.

Definition byte_of_N (n : N) : byte := byte_of_ascii (ascii_of_N n).

Definition is_pad (c : ascii) : bool := Ascii.eqb c "="%char.

Definition is_empty (s : string) : bool :=
  match s with
  | EmptyString => true
  | _ => false
  end.

(** Padded base64: groups of four characters; padding is allowed in the
    last group only, as [xx==] or [xxx=]. *)
Fixpoint base64url_decode (s : string) : option (list byte) :=
  match s with
  | EmptyString => Some []
  | String c1 (String c2 (String c3 (String c4 rest))) =>
      match base64url_value c1, base64url_value c2 with
      | Some v1, Some v2 =>
          if is_pad c3 then
            if (is_pad c4 && is_empty rest)%bool
            then Some [byte_of_N ((v1 * 4 + v2 / 16) mod 256)]
            else None
          else
            match base64url_value c3 with
            | None => None
            | Some v3 =>
                if is_pad c4 then
                  if is_empty rest
                  then Some [byte_of_N ((v1 * 4 + v2 / 16) mod 256);
                             byte_of_N ((v2 * 16 + v3 / 4) mod 256)]
                  else None
                else
                  match base64url_value c4 with
                  | None => None
                  | Some v4 =>
                      match base64url_decode rest with
                      | None => None
                      | Some tl =>
                          Some (byte_of_N ((v1 * 4 + v2 / 16) mod 256)
                                :: byte_of_N ((v2 * 16 + v3 / 4) mod 256)
                                :: byte_of_N ((v3 * 64 + v4) mod 256)
                                :: tl)
                      end
                  end
            end
      | _, _ => None
      end
  | _ => None
  end.

Fixpoint repeat_pad (n : nat) : string :=
  match n with
  | O => EmptyString
  | Datatypes.S n' => String "="%char (repeat_pad n')
  end.

(** Unpadded input is padded to a multiple of four characters first. *)
Definition base64url_safeDecode (str : string) : list byte * option error :=
  let lenMod4 := Nat.modulo (String.length str) 4 in
  let str := if Nat.ltb 0 lenMod4 then str ++ repeat_pad (4 - lenMod4) else str in
  match base64url_decode str with
  | Some b => (b, None)
  | None => ([], Some "illegal base64 data")
  end.

(** ** A scanner for JSON

    An executable instance of the scanner of [encoding/json], used to run
    the engine on concrete tokens.  It follows the JSON grammar and the way
    [encoding/json] unquotes strings; bytes above 0x7F inside a string are
    copied as they are, and the text of a syntax error is one fixed
    message. *)

Definition is_ws (c : ascii) : bool :=
  let n := N_of_ascii c in
  (N.eqb n 32 || N.eqb n 9 || N.eqb n 10 || N.eqb n 13)%bool.

Fixpoint skip_ws (s : string) : string :=
  match s with
  | EmptyString => s
  | String c rest => if is_ws c then skip_ws rest else s
  end.

Definition is_digit (c : ascii) : bool :=
  let n := N_of_ascii c in (N.leb 48 n && N.leb n 57)%bool.

Definition hex_value (c : ascii) : option N :=
  let n := N_of_ascii c in
  if (N.leb 48 n && N.leb n 57)%bool then Some (n - 48)%N
  else if (N.leb 97 n && N.leb n 102)%bool then Some (n - 97 + 10)%N
  else if (N.leb 65 n && N.leb n 70)%bool then Some (n - 65 + 10)%N
  else None.

Definition getu4 (h1 h2 h3 h4 : ascii) : option N :=
  match hex_value h1, hex_value h2, hex_value h3, hex_value h4 with
  | Some a, Some b, Some c, Some d => Some (((a * 16 + b) * 16 + c) * 16 + d)%N
  | _, _, _, _ => None
  end.

Definition chr (n : N) : string := String (ascii_of_N n) EmptyString.

Definition utf8_EncodeRune (r : N) : string :=
  if N.ltb r 128 then chr r
  else if N.ltb r 2048 then chr (192 + r / 64) ++ chr (128 + r mod 64)
  else if N.ltb r 65536 then
    chr (224 + r / 4096) ++ chr (128 + (r / 64) mod 64) ++ chr (128 + r mod 64)
  else
    chr (240 + r / 262144) ++ chr (128 + (r / 4096) mod 64)
      ++ chr (128 + (r / 64) mod 64) ++ chr (128 + r mod 64).

Definition ReplacementChar : N := 65533.
Definition is_high_surrogate (r : N) : bool := (N.leb 55296 r && N.ltb r 56320)%bool.
Definition is_low_surrogate (r : N) : bool := (N.leb 56320 r && N.ltb r 57344)%bool.

Definition quote_char : ascii := ascii_of_N 34.
Definition backslash_char : ascii := ascii_of_N 92.

(** The escapes of one character: quote, backslash, slash, b, f, n, r, t. *)
Definition simple_escape (c : ascii) : option ascii :=
  let n := N_of_ascii c in
  if N.eqb n 34 then Some c
  else if N.eqb n 92 then Some c
  else if N.eqb n 47 then Some c
  else if N.eqb n 98 then Some (ascii_of_N 8)
  else if N.eqb n 102 then Some (ascii_of_N 12)
  else if N.eqb n 110 then Some (ascii_of_N 10)
  else if N.eqb n 114 then Some (ascii_of_N 13)
  else if N.eqb n 116 then Some (ascii_of_N 9)
  else None.

Definition prepend (p : string) (r : option (string * string))
  : option (string * string) :=
  match r with
  | Some (t, rest) => Some (p ++ t, rest)
  | None => None
  end.

(** The characters of a string after its opening quote: the string they
    denote and what follows the closing quote. *)
Fixpoint scan_string (s : string) : option (string * string) :=
  match s with
  | EmptyString => None
  | String c rest =>
      if Ascii.eqb c quote_char then Some (EmptyString, rest)
      else if Ascii.eqb c backslash_char then
        match rest with
        | EmptyString => None
        | String e rest1 =>
            if Ascii.eqb e "u"%char then
              match rest1 with
              | String h1 (String h2 (String h3 (String h4 rest2))) =>
                  match getu4 h1 h2 h3 h4 with
                  | None => None
                  | Some rr =>
                      if is_high_surrogate rr then
                        match rest2 with
                        | String b (String u (String l1 (String l2
                            (String l3 (String l4 rest3))))) =>
                            match getu4 l1 l2 l3 l4 with
                            | Some rr1 =>
                                if (Ascii.eqb b backslash_char && Ascii.eqb u "u"%char
                                    && is_low_surrogate rr1)%bool
                                then prepend
                                       (utf8_EncodeRune
                                          (65536 + (rr - 55296) * 1024
                                           + (rr1 - 56320)))
                                       (scan_string rest3)
                                else prepend (utf8_EncodeRune ReplacementChar)
                                             (scan_string rest2)
                            | None => prepend (utf8_EncodeRune ReplacementChar)
                                              (scan_string rest2)
                            end
                        | _ => prepend (utf8_EncodeRune ReplacementChar)
                                       (scan_string rest2)
                        end
                      else if is_low_surrogate rr then
                        prepend (utf8_EncodeRune ReplacementChar)
                                (scan_string rest2)
                      else prepend (utf8_EncodeRune rr) (scan_string rest2)
                  end
              | _ => None
              end
            else
              match simple_escape e with
              | Some x => prepend (String x EmptyString) (scan_string rest1)
              | None => None
              end
        end
      else if N.ltb (N_of_ascii c) 32 then None
      else prepend (String c EmptyString) (scan_string rest)
  end.

Fixpoint take_digits (s : string) : string * string :=
  match s with
  | EmptyString => (EmptyString, EmptyString)
  | String c rest =>
      if is_digit c then
        let (d, r) := take_digits rest in (String c d, r)
      else (EmptyString, s)
  end.

(** A number: an optional minus sign; an integer part, which is 0 or a
    non-zero digit followed by digits; an optional fraction, a point and at
    least one digit; an optional exponent, e or E, an optional sign and at
    least one digit. *)
Definition scan_number (s : string) : option (string * string) :=
  let (sign, s1) :=
    match s with
    | String c r => if Ascii.eqb c "-"%char then ("-", r) else (EmptyString, s)
    | EmptyString => (EmptyString, s)
    end in
  let int_part : option (string * string) :=
    match s1 with
    | String c r =>
        if Ascii.eqb c "0"%char then Some ("0", r)
        else if is_digit c then
          let (d, r') := take_digits r in Some (String c d, r')
        else None
    | EmptyString => None
    end in
  match int_part with
  | None => None
  | Some (i, s2) =>
      let frac_part : option (string * string) :=
        match s2 with
        | String c r =>
            if Ascii.eqb c "."%char then
              match take_digits r with
              | (EmptyString, _) => None
              | (d, r') => Some (String c d, r')
              end
            else Some (EmptyString, s2)
        | EmptyString => Some (EmptyString, s2)
        end in
      match frac_part with
      | None => None
      | Some (f, s3) =>
          let exp_part : option (string * string) :=
            match s3 with
            | String c r =>
                if (Ascii.eqb c "e"%char || Ascii.eqb c "E"%char)%bool then
                  let (sg, r1) :=
                    match r with
                    | String c' r' =>
                        if (Ascii.eqb c' "+"%char || Ascii.eqb c' "-"%char)%bool
                        then (String c' EmptyString, r') else (EmptyString, r)
                    | EmptyString => (EmptyString, r)
                    end in
                  match take_digits r1 with
                  | (EmptyString, _) => None
                  | (d, r') => Some (String c sg ++ d, r')
                  end
                else Some (EmptyString, s3)
            | EmptyString => Some (EmptyString, s3)
            end in
          match exp_part with
          | None => None
          | Some (e, s4) => Some (sign ++ i ++ f ++ e, s4)
          end
      end
  end.

Fixpoint strip_prefix (p s : string) : option string :=
  match p with
  | EmptyString => Some s
  | String c p' =>
      match s with
      | String d s' => if Ascii.eqb c d then strip_prefix p' s' else None
      | EmptyString => None
      end
  end.

(** Values, the elements of an array and the members of an object.  The
    fuel bounds the number of nested calls: each call consumes one unit, and
    [scan_JSON] starts with twice the length of the input plus two. *)
Fixpoint scan_value (fuel : nat) (s : string) : option (JSON * string) :=
  match fuel with
  | O => None
  | Datatypes.S fuel' =>
      match skip_ws s with
      | EmptyString => None
      | String c rest =>
          if Ascii.eqb c "{"%char then
            match skip_ws rest with
            | EmptyString => None
            | String c' rest' =>
                if Ascii.eqb c' "}"%char then Some (J_object [], rest')
                else
                  match scan_members fuel' rest with
                  | Some (ms, r) => Some (J_object ms, r)
                  | None => None
                  end
            end
          else if Ascii.eqb c "["%char then
            match skip_ws rest with
            | EmptyString => None
            | String c' rest' =>
                if Ascii.eqb c' "]"%char then Some (J_array [], rest')
                else
                  match scan_elements fuel' rest with
                  | Some (vs, r) => Some (J_array vs, r)
                  | None => None
                  end
            end
          else if Ascii.eqb c quote_char then
            match scan_string rest with
            | Some (str, r) => Some (J_string str, r)
            | None => None
            end
          else if (Ascii.eqb c "-"%char || is_digit c)%bool then
            match scan_number (String c rest) with
            | Some (lit, r) => Some (J_number lit, r)
            | None => None
            end
          else
            match strip_prefix "null" (String c rest) with
            | Some r => Some (J_null, r)
            | None =>
                match strip_prefix "true" (String c rest) with
                | Some r => Some (J_bool true, r)
                | None =>
                    match strip_prefix "false" (String c rest) with
                    | Some r => Some (J_bool false, r)
                    | None => None
                    end
                end
            end
      end
  end

with scan_elements (fuel : nat) (s : string) : option (list JSON * string) :=
  match fuel with
  | O => None
  | Datatypes.S fuel' =>
      match scan_value fuel' s with
      | None => None
      | Some (v, r) =>
          match skip_ws r with
          | EmptyString => None
          | String c r' =>
              if Ascii.eqb c ","%char then
                match scan_elements fuel' r' with
                | Some (vs, r'') => Some (v :: vs, r'')
                | None => None
                end
              else if Ascii.eqb c "]"%char then Some ([v], r')
              else None
          end
      end
  end

with scan_members (fuel : nat) (s : string)
  : option (list (string * JSON) * string) :=
  match fuel with
  | O => None
  | Datatypes.S fuel' =>
      match skip_ws s with
      | EmptyString => None
      | String q r0 =>
          if Ascii.eqb q quote_char then
            match scan_string r0 with
            | None => None
            | Some (key, r1) =>
                match skip_ws r1 with
                | EmptyString => None
                | String c r2 =>
                    if Ascii.eqb c ":"%char then
                      match scan_value fuel' r2 with
                      | None => None
                      | Some (v, r3) =>
                          match skip_ws r3 with
                          | EmptyString => None
                          | String c' r4 =>
                              if Ascii.eqb c' ","%char then
                                match scan_members fuel' r4 with
                                | Some (ms, r5) => Some ((key, v) :: ms, r5)
                                | None => None
                                end
                              else if Ascii.eqb c' "}"%char
                              then Some ([(key, v)], r4)
                              else None
                          end
                      end
                    else None
                end
            end
          else None
      end
  end.

(** The whole input is one value, with white space around it at most. *)
Definition scan_JSON (data : list byte) : JSON + error :=
  let s := string_of_list_byte data in
  match scan_value (2 * String.length s + 2) s with
  | None => inr "json: syntax error"
  | Some (v, r) =>
      if is_empty (skip_ws r) then inl v else inr "json: syntax error"
  end.

(** ** Stand-ins for the [crypto] packages

    Executable functions of the types of the digests and of the two
    signature checks, used to run the engine on concrete tokens.  They are
    check sums, not the real algorithms; the theorems below hold for every
    choice of these functions. *)

Definition checksum (b : list byte) : N :=
  fold_left (fun acc x => ((acc * 31 + Byte.to_N x) mod 256)%N) b 7%N.

Definition standin_sha256 (input : list byte) : list byte :=
  [byte_of_N (checksum input)].
Definition standin_sha512 (input : list byte) : list byte :=
  [byte_of_N (checksum input); byte_of_N (checksum input)].
Definition standin_hmac_sha256 (key input : list byte) : list byte :=
  [byte_of_N (checksum (key ++ input))].
Definition standin_rsa_VerifyPKCS1v15 (pub : rsa_PublicKey)
    (hashed sig : list byte) : option error :=
  if hmac_Equal hashed sig then None else Some "crypto/rsa: verification error".
Definition standin_ecdsa_Verify (pub : ecdsa_PublicKey) (hash : list byte)
    (r s : Z) : bool :=
  Z.eqb r (big_SetBytes hash).

(** The world before any call. *)
Definition initial_world : World unit := {| provider_state := tt; trace := [] |}.

(** The engine over these instances, with a provider that has no state. *)
Definition run (jws : string) (kp : KeyProvider unit) : Completion * World unit :=
  VerifyAndDecode unit base64url_safeDecode scan_JSON
    standin_sha256 standin_sha512 standin_hmac_sha256
    standin_rsa_VerifyPKCS1v15 standin_ecdsa_Verify
    jws kp initial_world.

(** The header that the engine decodes from a header segment, over the
    executable instances. *)
Definition decoded_header (segment : string) : Header :=
  fst (json_Unmarshal scan_JSON (fst (base64url_safeDecode segment)) zero_Header).

(** A provider with a state of its own: it counts its calls, and answers
    every call with the same key. *)
Definition counting_provider (key : PublicKey) : KeyProvider nat :=
  {| GetJWSKey := fun _ calls => ((key, None), Datatypes.S calls) |}.

(** A provider that finds no key. *)
Definition failing_provider : KeyProvider unit :=
  {| GetJWSKey := fun _ s => ((K_nil, Some "no such key"), s) |}.

Definition sample_ecdsa_PublicKey : ecdsa_PublicKey :=
  {| ecdsa_Curve := {| curve_P := 23; curve_N := 29; curve_B := 1;
                       curve_Gx := 3; curve_Gy := 10; curve_BitSize := 5 |};
     ecdsa_X := 9; ecdsa_Y := 7 |}.


(** ** The objects of a call, in a store

    [VerifyAndDecode] creates mutable objects and changes them in place: a
    hash object, which [io.WriteString] appends to, and two [big.Int]s,
    which [SetBytes] assigns.  Here these objects live in a store that
    outlasts the call: [sha256.New], [sha512.New], [hmac.New] and
    [new(big.Int)] add an object to the store and return its address, and
    the other operations read and change the object at an address.  A call
    starts in the store that earlier calls have left. *)

Record Store := {
  hash_objects : list hash_Hash;
  int_objects : list Z
}.

Definition empty_Store : Store := {| hash_objects := []; int_objects := [] |}.

Fixpoint update_nth {A : Type} (n : nat) (f : A -> A) (l : list A) : list A :=
  match l, n with
  | [], _ => []
  | x :: l', O => f x :: l'
  | x :: l', Datatypes.S n' => x :: update_nth n' f l'
  end.

Module Stored.

Section Engine.

Variable S : Type.
Variable safeDecode : string -> list byte * option error.
Variable json_scan : list byte -> JSON + error.
Variable sha256_Sum : list byte -> list byte.
Variable sha512_Sum : list byte -> list byte.
Variable hmac_sha256_Sum : list byte -> list byte -> list byte.
Variable rsa_VerifyPKCS1v15 :
  rsa_PublicKey -> list byte -> list byte -> option error.
Variable ecdsa_Verify : ecdsa_PublicKey -> list byte -> Z -> Z -> bool.

(** [sha256.New()], [sha512.New()] and [hmac.New(sha256.New, key)]. *)
Definition New (f : hash_function) (st : Store) : nat * Store :=
  (length (hash_objects st),
   {| hash_objects := hash_objects st ++ [hash_New f];
      int_objects := int_objects st |}).

(** [io.WriteString(hs, s)]. *)
Definition WriteString (hs : nat) (s : string) (st : Store) : Store :=
  {| hash_objects :=
       update_nth hs (fun h => io_WriteString h s) (hash_objects st);
     int_objects := int_objects st |}.

(** [hs.Sum(nil)]. *)
Definition Sum (hs : nat) (st : Store) (w : World S) : list byte * World S :=
  hash_Sum S sha256_Sum sha512_Sum hmac_sha256_Sum
    (nth hs (hash_objects st) (hash_New SHA256)) w.

(** [new(big.Int)]. *)
Definition NewInt (st : Store) : nat * Store :=
  (length (int_objects st),
   {| hash_objects := hash_objects st;
      int_objects := int_objects st ++ [0%Z] |}).

(** [r.SetBytes(b)]. *)
Definition SetBytes (r : nat) (b : list byte) (st : Store) : Store :=
  {| hash_objects := hash_objects st;
     int_objects := update_nth r (fun _ => big_SetBytes b) (int_objects st) |}.

Definition IntValue (r : nat) (st : Store) : Z := nth r (int_objects st) 0%Z.

Definition VerifyAndDecode (jws : string) (kp : KeyProvider S) (w : World S)
    (st : Store) : Completion * World S * Store :=
  let parts := strings_Split jws dot in
  if negb (Nat.eqb (length parts) 3) then
    (Returns None (errors_New "Malformed JWS"), w, st)
  else
  let parts0 := nth 0 parts EmptyString in
  let parts1 := nth 1 parts EmptyString in
  let parts2 := nth 2 parts EmptyString in
  (* decode the JWS header *)
  let header := zero_Header in
  let (data, err) := safeDecode parts0 in
  match err with
  | Some e =>
      (Returns None (fmt_Errorf ("Malformed JWS header: " ++ e)), w, st)
  | None =>
  let (header, err) := json_Unmarshal json_scan data header in
  match err with
  | Some e =>
      (Returns None (fmt_Errorf ("Failed to decode header: " ++ e)), w, st)
  | None =>
  (* acquire the public key *)
  let '((key, err), w) := call_GetJWSKey S kp header w in
  match err with
  | Some e =>
      (Returns None (fmt_Errorf ("Failed to acquire public key: " ++ e)),
       w, st)
  | None =>
  (* validate the signature *)
  let (signature, err) := safeDecode parts2 in
  match err with
  | Some e =>
      (Returns None (fmt_Errorf ("Malformed JWS signature: " ++ e)), w, st)
  | None =>
  (* decode the payload: the statements after the switch *)
  let decode_payload (w : World S) (st : Store)
    : Completion * World S * Store :=
    let (payload, err) := safeDecode parts1 in
    match err with
    | Some e =>
        (Returns None (fmt_Errorf ("Malformed JWS payload: " ++ e)), w, st)
    | None => (Returns (Some payload) None, w, st)
    end in
  if String.eqb (Alg header) ALG_NONE then
    if negb (key_is_NoneKey key) then
      (Returns None (errors_New "Refusing to validate plaintext JWS"), w, st)
    else decode_payload w st
  else if String.eqb (Alg header) ALG_HS256 then
    match key with
    | K_bytes symmetricKey =>
        let (hm, st) := New (HMAC_SHA256 symmetricKey) st in
        let st := WriteString hm parts0 st in
        let st := WriteString hm "." st in
        let st := WriteString hm parts1 st in
        let (expectedSignature, w) := Sum hm st w in
        if negb (hmac_Equal expectedSignature signature) then
          (Returns None (fmt_Errorf "Signature verification failed"), w, st)
        else decode_payload w st
    | _ =>
        (Returns None
           (fmt_Errorf ("Expected symmetric ([]byte) key. Got " ++ fmt_T key)),
         w, st)
    end
  else if String.eqb (Alg header) ALG_RS256 then
    let with_pubKey (pubKey : ptr rsa_PublicKey)
      : Completion * World S * Store :=
      (* generate hashed input *)
      let (hs, st) := New SHA256 st in
      let st := WriteString hs parts0 st in
      let st := WriteString hs "." st in
      let st := WriteString hs parts1 st in
      let (hashed, w) := Sum hs st w in
      let w := record (E_rsa_VerifyPKCS1v15 pubKey hashed signature) w in
      match pubKey with
      | nil_ptr => (Panics nil_dereference, w, st)
      | ref pub =>
          match rsa_VerifyPKCS1v15 pub hashed signature with
          | Some _ =>
              (Returns None (fmt_Errorf "Signature verification failed"),
               w, st)
          | None => decode_payload w st
          end
      end in
    match key with
    | K_rsa_PublicKey pubKey => with_pubKey pubKey
    | K_rsa_PrivateKey privKey =>
        match privKey with
        | nil_ptr => (Panics nil_dereference, w, st)
        | ref priv => with_pubKey (ref (rsa_PublicKey_of priv))
        end
    | _ =>
        (Returns None (fmt_Errorf ("Expected RSA key. Got " ++ fmt_T key)),
         w, st)
    end
  else if (String.eqb (Alg header) ALG_ES256
           || String.eqb (Alg header) ALG_ES512)%bool then
    let with_pubKey (pubKey : ptr ecdsa_PublicKey)
      : Completion * World S * Store :=
      let sizes : option (nat * Store * nat * nat) :=
        if String.eqb (Alg header) ALG_ES256 then
          Some (New SHA256 st, 32, 32)
        else if String.eqb (Alg header) ALG_ES512 then
          Some (New SHA512 st, 66, 66)
        else None in
      match sizes with
      | None => (Panics ("Alorithm logic error with " ++ Alg header), w, st)
      | Some (hs, st, rSize, sSize) =>
          (* split signature into R and S *)
          if negb (Nat.eqb (length signature) (rSize + sSize)) then
            (Returns None (fmt_Errorf "Signature verification failed"), w, st)
          else
          let (r, st) := NewInt st in
          let (s, st) := NewInt st in
          let w := record (E_SetBytes (firstn rSize signature)) w in
          let st := SetBytes r (firstn rSize signature) st in
          let w := record (E_SetBytes (skipn rSize signature)) w in
          let st := SetBytes s (skipn rSize signature) st in
          (* generate hashed input *)
          let st := WriteString hs parts0 st in
          let st := WriteString hs "." st in
          let st := WriteString hs parts1 st in
          let (hashed, w) := Sum hs st w in
          let w := record (E_ecdsa_Verify pubKey hashed
                             (IntValue r st) (IntValue s st)) w in
          match pubKey with
          | nil_ptr => (Panics nil_dereference, w, st)
          | ref pub =>
              if negb (ecdsa_Verify pub hashed (IntValue r st) (IntValue s st))
              then
                (Returns None (fmt_Errorf "Signature verification failed"),
                 w, st)
              else decode_payload w st
          end
      end in
    match key with
    | K_ecdsa_PublicKey pubKey => with_pubKey pubKey
    | K_ecdsa_PrivateKey privKey =>
        match privKey with
        | nil_ptr => (Panics nil_dereference, w, st)
        | ref priv => with_pubKey (ref (ecdsa_PublicKey_of priv))
        end
    | _ =>
        (Returns None (fmt_Errorf ("Expected ECDSA key. Got " ++ fmt_T key)),
         w, st)
    end
  else
    (Returns None
       (fmt_Errorf ("Unknown signature algorithm: " ++ Alg header)), w, st)
  end end end end.

End Engine.

End Stored.

(** * Properties of the engine *)

(** One step of case analysis on the innermost scrutinee of the goal. *)
Ltac case_split :=
  match goal with
  | |- context [match ?x with _ => _ end] =>
      lazymatch x with
      | context [match _ with _ => _ end] => fail
      | _ => destruct x eqn:?
      end
  end.

(** Every path through [VerifyAndDecode]. *)
Ltac all_paths :=
  unfold VerifyAndDecode, call_GetJWSKey, hash_Sum;
  repeat (case_split; cbn [fst snd]).

Section Properties.

Variable S : Type.
Variable safeDecode : string -> list byte * option error.
Variable json_scan : list byte -> JSON + error.
Variable sha256_Sum : list byte -> list byte.
Variable sha512_Sum : list byte -> list byte.
Variable hmac_sha256_Sum : list byte -> list byte -> list byte.
Variable rsa_VerifyPKCS1v15 :
  rsa_PublicKey -> list byte -> list byte -> option error.
Variable ecdsa_Verify : ecdsa_PublicKey -> list byte -> Z -> Z -> bool.

Let engine := VerifyAndDecode S safeDecode json_scan sha256_Sum sha512_Sum
                hmac_sha256_Sum rsa_VerifyPKCS1v15 ecdsa_Verify.
Let unmarshal := json_Unmarshal json_scan.

(** C8: whenever [VerifyAndDecode] returns an error, the payload it
    returns with it is [nil]: no return statement releases payload bytes
    together with an error. *)
Theorem error_returns_no_payload :
  forall (jws : string) (kp : KeyProvider S) (w : World S)
         (payload : option (list byte)) (e : error),
    fst (engine jws kp w) = Returns payload (Some e) -> payload = None.
Proof.
  intros jws kp w payload e. subst engine.
  all_paths; intros H; congruence.
Qed.

(** C10: the [panic] of the ES256/ES512 branch is never executed: no call
    of [VerifyAndDecode] ends in the panic whose value starts with
    ["Alorithm logic error with "]. *)
Theorem algorithm_logic_panic_unreachable :
  forall (jws : string) (kp : KeyProvider S) (w : World S) (alg : string),
    fst (engine jws kp w) <> Panics ("Alorithm logic error with " ++ alg).
Proof.
  intros jws kp w alg. subst engine.
  all_paths; try discriminate.
  all: match goal with
       | H : (_ || _)%bool = true |- _ =>
           apply orb_true_iff in H; destruct H; congruence
       end.
Qed.

(** [strings.Split] returns at least one segment. *)
Lemma strings_Split_not_nil :
  forall (s : string) (sep : ascii), strings_Split s sep <> [].
Proof.
  induction s as [|c rest IH]; intros sep; simpl.
  - discriminate.
  - destruct (Ascii.eqb c sep); [discriminate|].
    destruct (strings_Split rest sep); discriminate.
Qed.

(** C3, amended: [VerifyAndDecode] fails with the error "Malformed JWS"
    exactly when splitting the input on the dot does not yield three
    segments, and it then leaves the provider alone.  Whether a segment is
    empty plays no part in this test. *)
Theorem malformed_iff_not_three_segments :
  forall (jws : string) (kp : KeyProvider S) (w : World S),
    (fst (engine jws kp w) = Returns None (Some "Malformed JWS")
     <-> length (strings_Split jws dot) <> 3)
    /\ (length (strings_Split jws dot) <> 3 -> snd (engine jws kp w) = w).
Proof.
  intros jws kp w. subst engine. unfold VerifyAndDecode.
  destruct (Nat.eqb (length (strings_Split jws dot)) 3) eqn:Hlen; cbn [negb].
  - apply Nat.eqb_eq in Hlen. split; [split|]; [|congruence|congruence].
    unfold call_GetJWSKey, hash_Sum.
    repeat (case_split; cbn [fst snd]); intros H; simpl in H;
      discriminate H.
  - apply Nat.eqb_neq in Hlen. cbn [fst snd]. unfold errors_New.
    split; [split|]; auto.
Qed.

(** Entering the function with an input of three segments whose header
    segment decodes to [header]. *)
Ltac enter Hsplit Hhdr Hjson :=
  subst engine; subst unmarshal; unfold VerifyAndDecode;
  rewrite Hsplit; cbn [length Nat.eqb negb nth];
  rewrite Hhdr; rewrite Hjson.

(** C1, amended: for an input of three segments whose decoded header
    declares the algorithm none, a key other than [NoneKey], whatever its
    type, makes [VerifyAndDecode] fail; and when the provider returns
    [NoneKey] the call succeeds with the decoded payload whatever bytes the
    signature segment decodes to, provided that the signature segment and
    the payload segment are valid transport encoding. *)
Theorem none_requires_NoneKey :
  forall (jws h p s : string) (kp : KeyProvider S) (w w' : World S)
         (data : list byte) (header : Header) (key : PublicKey)
         (kerr : option error),
    strings_Split jws dot = [h; p; s] ->
    safeDecode h = (data, None) ->
    unmarshal data zero_Header = (header, None) ->
    Alg header = ALG_NONE ->
    call_GetJWSKey S kp header w = ((key, kerr), w') ->
    (key <> K_NoneKeyType NoneKey ->
     exists e, engine jws kp w = (Returns None (Some e), w'))
    /\ (forall payload,
          fst (engine jws kp w) = Returns payload None ->
          key = K_NoneKeyType NoneKey /\ kerr = None)
    /\ (key = K_NoneKeyType NoneKey -> kerr = None ->
        forall sig payload : list byte,
          safeDecode s = (sig, None) ->
          safeDecode p = (payload, None) ->
          engine jws kp w = (Returns (Some payload) None, w')).
Proof.
  intros jws h p s kp w w' data header key kerr Hsplit Hhdr Hjson Halg Hkey.
  assert (Hnone : key_is_NoneKey key = true <-> key = K_NoneKeyType NoneKey).
  { destruct key; simpl; split; intros H; try discriminate; try reflexivity.
    - apply Z.eqb_eq in H. congruence.
    - injection H as ->. reflexivity. }
  enter Hsplit Hhdr Hjson. rewrite Hkey, Halg. cbn [String.eqb Ascii.eqb].
  change (String.eqb ALG_NONE ALG_NONE) with true. cbv iota.
  split; [|split].
  - intros Hne. destruct kerr; [eauto|].
    destruct (safeDecode s) as [sig [e|]]; [eauto|].
    destruct (key_is_NoneKey key); cbn [negb]; [|unfold errors_New; eauto].
    exfalso. apply Hne, Hnone. reflexivity.
  - intros payload. destruct kerr; [discriminate|].
    destruct (safeDecode s) as [sig [e|]]; [discriminate|].
    destruct (key_is_NoneKey key); cbn [negb fst]; [|discriminate].
    intros _. split; [apply Hnone; reflexivity|reflexivity].
  - intros -> -> sig payload Hs Hp. rewrite Hs, Hp. reflexivity.
Qed.

(** C7, amended: for an input of three segments whose decoded header
    carries an algorithm outside of the five supported ones, once the
    provider has returned a key without an error and the signature segment
    has been decoded, [VerifyAndDecode] fails with the error that names the
    algorithm, whatever the key and the decoded signature are. *)
Theorem unknown_algorithm_is_named :
  forall (jws h p s : string) (kp : KeyProvider S) (w w' : World S)
         (data sig : list byte) (header : Header) (key : PublicKey),
    strings_Split jws dot = [h; p; s] ->
    safeDecode h = (data, None) ->
    unmarshal data zero_Header = (header, None) ->
    ~ In (Alg header) [ALG_NONE; ALG_HS256; ALG_RS256; ALG_ES256; ALG_ES512] ->
    call_GetJWSKey S kp header w = ((key, None), w') ->
    safeDecode s = (sig, None) ->
    engine jws kp w
    = (Returns None (Some ("Unknown signature algorithm: " ++ Alg header)), w').
Proof.
  intros jws h p s kp w w' data sig header key Hsplit Hhdr Hjson Halg Hkey Hs.
  enter Hsplit Hhdr Hjson. rewrite Hkey, Hs.
  assert (Hne : forall a,
             In a [ALG_NONE; ALG_HS256; ALG_RS256; ALG_ES256; ALG_ES512] ->
             String.eqb (Alg header) a = false).
  { intros a Ha. apply String.eqb_neq. intros Heq. apply Halg.
    rewrite Heq. exact Ha. }
  rewrite !Hne by (simpl; tauto). reflexivity.
Qed.

(** C5: for an input of three segments whose header declares ES256 (or
    ES512) and whose provider returns an ECDSA key, a decoded signature
    whose length is not 64 (or 132) bytes makes [VerifyAndDecode] fail with
    the error "Signature verification failed"; the provider call is the only
    event of the call: no bytes are parsed into R and S, nothing is hashed
    and [ecdsa.Verify] is not called. *)
Theorem ecdsa_signature_length_is_checked_first :
  forall (jws h p s : string) (kp : KeyProvider S) (w w' : World S)
         (data sig : list byte) (header : Header) (key : PublicKey) (n : nat),
    strings_Split jws dot = [h; p; s] ->
    safeDecode h = (data, None) ->
    unmarshal data zero_Header = (header, None) ->
    (Alg header = ALG_ES256 /\ n = 64) \/ (Alg header = ALG_ES512 /\ n = 132) ->
    call_GetJWSKey S kp header w = ((key, None), w') ->
    (exists pub, key = K_ecdsa_PublicKey pub)
    \/ (exists priv, key = K_ecdsa_PrivateKey (ref priv)) ->
    safeDecode s = (sig, None) ->
    length sig <> n ->
    engine jws kp w = (Returns None (Some "Signature verification failed"), w')
    /\ trace w' = (trace w ++ [E_GetJWSKey header])%list.
Proof.
  intros jws h p s kp w w' data sig header key n
         Hsplit Hhdr Hjson Halg Hkey Hty Hs Hlen.
  split.
  - enter Hsplit Hhdr Hjson. rewrite Hkey, Hs.
    destruct Halg as [[-> ->]|[-> ->]];
      apply Nat.eqb_neq in Hlen;
      destruct Hty as [[pub ->]|[priv ->]];
      cbn [String.eqb Ascii.eqb Bool.eqb ALG_NONE ALG_HS256 ALG_RS256
           ALG_ES256 ALG_ES512 orb Nat.add];
      cbn [Nat.add] in Hlen; rewrite Hlen; reflexivity.
  - unfold call_GetJWSKey in Hkey.
    destruct (GetJWSKey kp header (provider_state w)) as [r st].
    injection Hkey as _ <-. reflexivity.
Qed.

(** C6: when the header segment (the first segment of the input) is not
    valid transport encoding, or decodes to bytes that are not valid JSON,
    [VerifyAndDecode] fails and leaves the world as it found it: the Key
    Provider is not called and no digest or signature check is computed.
    For an input of three segments the error is "Malformed JWS header: ..."
    in the first case and "Failed to decode header: ..." in the second, and
    these two messages are never the same. *)
Theorem header_decoding_fails_closed :
  forall (jws : string) (kp : KeyProvider S) (w : World S) (data : list byte),
    let parts := strings_Split jws dot in
    (forall e,
        safeDecode (nth 0 parts EmptyString) = (data, Some e) ->
        snd (engine jws kp w) = w
        /\ (exists msg, fst (engine jws kp w) = Returns None (Some msg))
        /\ (length parts = 3 ->
            fst (engine jws kp w)
            = Returns None (Some ("Malformed JWS header: " ++ e))))
    /\ (forall e,
        safeDecode (nth 0 parts EmptyString) = (data, None) ->
        json_scan data = inr e ->
        snd (engine jws kp w) = w
        /\ (exists msg, fst (engine jws kp w) = Returns None (Some msg))
        /\ (length parts = 3 ->
            fst (engine jws kp w)
            = Returns None (Some ("Failed to decode header: " ++ e))))
    /\ (forall e1 e2,
        "Malformed JWS header: " ++ e1 <> "Failed to decode header: " ++ e2).
Proof.
  intros jws kp w data parts. subst engine. unfold VerifyAndDecode.
  fold parts.
  destruct (Nat.eqb (length parts) 3) eqn:Hlen; cbn [negb].
  - split; [|split].
    + intros e He. rewrite He. cbn [fst snd]. unfold fmt_Errorf. eauto.
    + intros e He Hj. rewrite He. unfold json_Unmarshal. rewrite Hj.
      cbn [fst snd]. unfold fmt_Errorf. eauto.
    + intros e1 e2. simpl. discriminate.
  - apply Nat.eqb_neq in Hlen. cbn [fst snd]. unfold errors_New.
    split; [|split].
    + intros e _. split; [reflexivity|]. split; [eauto|]. intros; contradiction.
    + intros e _ _. split; [reflexivity|]. split; [eauto|].
      intros; contradiction.
    + intros e1 e2. simpl. discriminate.
Qed.

(** The result of [VerifyAndDecode] depends on the world it is called in
    through the answer of the Key Provider only. *)
Lemma same_key_same_result :
  forall (jws : string) (kp : KeyProvider S) (w1 w2 : World S),
    (forall h, fst (GetJWSKey kp h (provider_state w1))
               = fst (GetJWSKey kp h (provider_state w2))) ->
    fst (engine jws kp w1) = fst (engine jws kp w2).
Proof.
  intros jws kp w1 w2 Hsame. subst engine.
  unfold VerifyAndDecode, call_GetJWSKey, hash_Sum.
  destruct (negb (Nat.eqb (length (strings_Split jws dot)) 3));
    [reflexivity|].
  destruct (safeDecode (nth 0 (strings_Split jws dot) EmptyString))
    as [data [e|]]; [reflexivity|].
  destruct (json_Unmarshal json_scan data zero_Header) as [header [e|]];
    [reflexivity|].
  specialize (Hsame header).
  destruct (GetJWSKey kp header (provider_state w1)) as [[k1 e1] s1].
  destruct (GetJWSKey kp header (provider_state w2)) as [[k2 e2] s2].
  cbn [fst] in Hsame. injection Hsame as -> ->.
  repeat (case_split; cbn [fst snd]); reflexivity.
Qed.

Lemma hmac_Equal_true :
  forall a b : list byte, hmac_Equal a b = true -> a = b.
Proof.
  intros a b. unfold hmac_Equal.
  destruct (list_eq_dec Byte.byte_eq_dec a b); [auto|discriminate].
Qed.

(** The cases of a membership in an explicit list of events. *)
Ltac in_cases H :=
  simpl in H;
  repeat match type of H with
         | _ \/ _ => destruct H as [H|H]
         end;
  try contradiction; try discriminate H.

(** Nothing but the signing input is hashed: for an input of three
    segments, every digest computed during a call, by HMAC-SHA256, SHA-256
    or SHA-512, is the digest of the encoded header segment, the dot and the
    encoded payload segment, and the digests handed to [rsa.VerifyPKCS1v15]
    and to [ecdsa.Verify] are digests of these bytes. *)
Lemma only_the_signing_input_is_hashed :
  forall (jws h p s : string) (kp : KeyProvider S) (w : World S),
    strings_Split jws dot = [h; p; s] ->
    let signing_input :=
      (list_byte_of_string h ++ list_byte_of_string "."
         ++ list_byte_of_string p)%list in
    exists added : list Event,
      trace (snd (engine jws kp w)) = (trace w ++ added)%list
      /\ (forall f input, In (E_Sum f input) added -> input = signing_input)
      /\ (forall pub hashed sig,
             In (E_rsa_VerifyPKCS1v15 pub hashed sig) added ->
             hashed = sha256_Sum signing_input
             /\ In (E_Sum SHA256 signing_input) added)
      /\ (forall pub hash r s',
             In (E_ecdsa_Verify pub hash r s') added ->
             (hash = sha256_Sum signing_input
              /\ In (E_Sum SHA256 signing_input) added)
             \/ (hash = sha512_Sum signing_input
                 /\ In (E_Sum SHA512 signing_input) added))
      /\ (forall header payload,
             In (E_GetJWSKey header) added ->
             Alg header <> ALG_NONE ->
             fst (engine jws kp w) = Returns (Some payload) None ->
             (Alg header = ALG_HS256 /\
              exists key, In (E_Sum (HMAC_SHA256 key) signing_input) added
                          /\ safeDecode s
                             = (hmac_sha256_Sum key signing_input, None))
             \/ ((Alg header = ALG_RS256 \/ Alg header = ALG_ES256)
                 /\ In (E_Sum SHA256 signing_input) added)
             \/ (Alg header = ALG_ES512
                 /\ In (E_Sum SHA512 signing_input) added)).
Proof.
  intros jws h p s kp w Hsplit signing_input. subst engine signing_input.
  unfold VerifyAndDecode. rewrite Hsplit. cbn [length Nat.eqb negb nth].
  unfold call_GetJWSKey, hash_Sum.
  repeat (case_split; cbn [fst snd]).
  all: unfold record in *;
       cbn [trace provider_state hash_fn hash_written
            io_WriteString hash_New app digest] in *.
  all: rewrite <- ?app_assoc in *; cbn [app] in *.
  all: try (exists []; rewrite app_nil_r; repeat split;
            simpl; intros; contradiction).
  all: eexists; split; [reflexivity|].
  all: repeat match goal with
         | H : negb _ = false |- _ => apply negb_false_iff in H
         | H : hmac_Equal _ _ = true |- _ => apply hmac_Equal_true in H
         | H : String.eqb _ _ = true |- _ => apply String.eqb_eq in H
         end.
  all: split; [solve [intros ? ? Hin; in_cases Hin; injection Hin as <- <-;
                      reflexivity]|].
  all: split; [solve [intros ? ? ? Hin; in_cases Hin;
                      injection Hin as <- <- <-; simpl; auto 12]|].
  all: split; [solve [intros ? ? ? ? Hin; in_cases Hin;
                      injection Hin as <- <- <- <-; simpl; auto 12]|].
  all: intros ? ? Hin Hne Hret; try discriminate Hret.
  all: in_cases Hin; injection Hin as <-.
  all: try contradiction.
  all: subst;
       first [ solve [left; split; [assumption|];
                      eexists; split; [simpl; auto 6|reflexivity]]
             | solve [right; left; split; [auto|simpl; auto 8]]
             | solve [right; right; split; [assumption|simpl; auto 8]] ].
Qed.

(** C2: for an input of three segments, the bytes that are hashed for
    the verification of the signature are the encoded header segment, the
    dot and the encoded payload segment, for each of the four signing
    algorithms.  Once the header is decoded, the provider has returned a key
    of the type of the algorithm and the signature segment is decoded, the
    events of the call after the provider call are exactly these: for HS256,
    the HMAC-SHA256 of these bytes under the key, and the call fails with
    "Signature verification failed" exactly when that MAC is not the decoded
    signature; for RS256, the SHA-256 of these bytes and the call of
    [rsa.VerifyPKCS1v15] on that digest; for ES256 and ES512, with a
    signature of 64 or 132 bytes, the parsing of R and S, the SHA-256 or
    SHA-512 of these bytes and the call of [ecdsa.Verify] on that digest.
    And nothing else is ever hashed in a call. *)
Theorem digest_input_is_encoded_header_dot_payload :
  forall (jws h p s : string) (kp : KeyProvider S) (w : World S),
    strings_Split jws dot = [h; p; s] ->
    let signing_input :=
      (list_byte_of_string h ++ list_byte_of_string "."
         ++ list_byte_of_string p)%list in
    (forall (data sig : list byte) (header : Header) (key : PublicKey)
            (w' : World S),
        safeDecode h = (data, None) ->
        unmarshal data zero_Header = (header, None) ->
        call_GetJWSKey S kp header w = ((key, None), w') ->
        safeDecode s = (sig, None) ->
        (forall symmetricKey,
            Alg header = ALG_HS256 ->
            key = K_bytes symmetricKey ->
            trace (snd (engine jws kp w))
            = (trace w' ++ [E_Sum (HMAC_SHA256 symmetricKey) signing_input])%list
            /\ (fst (engine jws kp w)
                = Returns None (Some "Signature verification failed")
                <-> hmac_sha256_Sum symmetricKey signing_input <> sig))
        /\ (forall pubKey,
               Alg header = ALG_RS256 ->
               key = K_rsa_PublicKey pubKey
               \/ (exists priv, key = K_rsa_PrivateKey (ref priv)
                                /\ pubKey = ref (rsa_PublicKey_of priv)) ->
               trace (snd (engine jws kp w))
               = (trace w'
                    ++ [E_Sum SHA256 signing_input;
                        E_rsa_VerifyPKCS1v15 pubKey
                          (sha256_Sum signing_input) sig])%list)
        /\ (forall pubKey size f hash,
               (Alg header = ALG_ES256 /\ size = 32
                /\ f = SHA256 /\ hash = sha256_Sum)
               \/ (Alg header = ALG_ES512 /\ size = 66
                   /\ f = SHA512 /\ hash = sha512_Sum) ->
               key = K_ecdsa_PublicKey pubKey
               \/ (exists priv, key = K_ecdsa_PrivateKey (ref priv)
                                /\ pubKey = ref (ecdsa_PublicKey_of priv)) ->
               length sig = size + size ->
               trace (snd (engine jws kp w))
               = (trace w'
                    ++ [E_SetBytes (firstn size sig);
                        E_SetBytes (skipn size sig);
                        E_Sum f signing_input;
                        E_ecdsa_Verify pubKey (hash signing_input)
                          (big_SetBytes (firstn size sig))
                          (big_SetBytes (skipn size sig))])%list))
    /\ (exists added : list Event,
           trace (snd (engine jws kp w)) = (trace w ++ added)%list
           /\ (forall f input,
                  In (E_Sum f input) added -> input = signing_input)
           /\ (forall pub hashed sig,
                  In (E_rsa_VerifyPKCS1v15 pub hashed sig) added ->
                  hashed = sha256_Sum signing_input)
           /\ (forall pub hash r s',
                  In (E_ecdsa_Verify pub hash r s') added ->
                  hash = sha256_Sum signing_input
                  \/ hash = sha512_Sum signing_input)).
Proof.
  intros jws h p s kp w Hsplit signing_input. split.
  - intros data sig header key w' Hhdr Hjson Hkey Hs.
    enter Hsplit Hhdr Hjson. rewrite Hkey, Hs.
    split; [|split].
    + intros symmetricKey -> ->.
      cbn [String.eqb Ascii.eqb Bool.eqb ALG_NONE ALG_HS256].
      unfold hash_Sum, record.
      cbn [hash_fn hash_written io_WriteString hash_New digest app fst snd].
      rewrite <- app_assoc. fold signing_input. unfold hmac_Equal.
      destruct (list_eq_dec Byte.byte_eq_dec
                  (hmac_sha256_Sum symmetricKey signing_input) sig)
        as [Heq|Hne]; cbn [negb fst snd].
      * split.
        -- destruct (safeDecode p) as [payload [e|]]; reflexivity.
        -- split; [|intros Hn; contradiction].
           destruct (safeDecode p) as [payload [e|]]; intros H;
             simpl in H; discriminate H.
      * split; [reflexivity|]. split; [intros _; exact Hne|reflexivity].
    + intros pubKey -> Hty.
      cbn [String.eqb Ascii.eqb Bool.eqb ALG_NONE ALG_HS256 ALG_RS256].
      destruct Hty as [->|(priv & -> & ->)];
        unfold hash_Sum, record;
        cbn [hash_fn hash_written io_WriteString hash_New digest app
             fst snd trace provider_state];
        repeat rewrite <- app_assoc; cbn [app]; fold signing_input.
      * destruct pubKey as [|pub]; [reflexivity|].
        destruct (rsa_VerifyPKCS1v15 pub (sha256_Sum signing_input) sig);
          [reflexivity|].
        destruct (safeDecode p) as [payload [e|]]; reflexivity.
      * destruct (rsa_VerifyPKCS1v15 (rsa_PublicKey_of priv)
                    (sha256_Sum signing_input) sig); [reflexivity|].
        destruct (safeDecode p) as [payload [e|]]; reflexivity.
    + intros pubKey size f hash Halg Hty Hlen.
      apply Nat.eqb_eq in Hlen.
      destruct Halg as [(-> & -> & -> & ->)|(-> & -> & -> & ->)];
        destruct Hty as [->|(priv & -> & ->)];
        cbn [String.eqb Ascii.eqb Bool.eqb ALG_NONE ALG_HS256 ALG_RS256
             ALG_ES256 ALG_ES512 orb];
        rewrite Hlen; cbn [negb];
        unfold hash_Sum, record;
        cbn [hash_fn hash_written io_WriteString hash_New digest app
             fst snd trace provider_state];
        repeat rewrite <- app_assoc; cbn [app]; fold signing_input.
      all: try (destruct pubKey as [|pub]; [reflexivity|]).
      all: match goal with
           | |- context [ecdsa_Verify ?k ?d ?r ?s0] =>
               destruct (ecdsa_Verify k d r s0)
           end; cbn [negb]; [|reflexivity].
      all: destruct (safeDecode p) as [payload [e|]]; reflexivity.
  - destruct (only_the_signing_input_is_hashed jws h p s kp w Hsplit)
      as (added & Ht & Hsum & Hrsa & Hec & _).
    exists added. split; [exact Ht|]. split; [exact Hsum|].
    split.
    + intros pub hashed sig Hin. exact (proj1 (Hrsa pub hashed sig Hin)).
    + intros pub hash r s' Hin.
      destruct (Hec pub hash r s' Hin) as [[Hh _]|[Hh _]]; auto.
Qed.

End Properties.

(** A token whose algorithm is none, presented to a provider that holds a
    key of another type, is refused, and no payload comes with the error. *)
Lemma error_returns_no_payload_witness :
  fst (run "eyJhbGciOiJub25lIn0.aGVsbG8.AA" (ProviderFromKey (K_bytes [])))
  = Returns None (Some "Refusing to validate plaintext JWS")
  /\ (None : option (list byte)) = None.
Proof.
  split; [reflexivity|].
  apply (error_returns_no_payload unit base64url_safeDecode scan_JSON
           standin_sha256 standin_sha512 standin_hmac_sha256
           standin_rsa_VerifyPKCS1v15 standin_ecdsa_Verify
           "eyJhbGciOiJub25lIn0.aGVsbG8.AA" (ProviderFromKey (K_bytes []))
           {| provider_state := tt; trace := [] |} None
           "Refusing to validate plaintext JWS").
  reflexivity.
Defined.

(** C3, as stated, fails: an input of three segments of which the payload
    and the signature segment are empty is not rejected as malformed; with a
    provider that holds [NoneKey] it is verified. *)
Lemma empty_segments_are_accepted :
  strings_Split "eyJhbGciOiJub25lIn0.." dot
  = ["eyJhbGciOiJub25lIn0"; EmptyString; EmptyString]
  /\ fst (run "eyJhbGciOiJub25lIn0.."
              (ProviderFromKey (K_NoneKeyType NoneKey)))
     = Returns (Some []) None
  /\ fst (run "eyJhbGciOiJub25lIn0.."
              (ProviderFromKey (K_NoneKeyType NoneKey)))
     <> Returns None (Some "Malformed JWS").
Proof.
  split; [reflexivity|]. split; [reflexivity|].
  vm_compute. discriminate.
Qed.

(** An unsigned token, presented to a provider that holds [NoneKey], is
    verified: its payload is returned. *)
Lemma none_requires_NoneKey_witness :
  run "eyJhbGciOiJub25lIn0.aGVsbG8.AA" (ProviderFromKey (K_NoneKeyType NoneKey))
  = (Returns (Some (list_byte_of_string "hello")) None,
     {| provider_state := tt;
        trace := [E_GetJWSKey (decoded_header "eyJhbGciOiJub25lIn0")] |}).
Proof.
  refine (proj2 (proj2
    (none_requires_NoneKey unit base64url_safeDecode scan_JSON
       standin_sha256 standin_sha512 standin_hmac_sha256
       standin_rsa_VerifyPKCS1v15 standin_ecdsa_Verify
       "eyJhbGciOiJub25lIn0.aGVsbG8.AA" "eyJhbGciOiJub25lIn0" "aGVsbG8" "AA"
       (ProviderFromKey (K_NoneKeyType NoneKey)) initial_world
       {| provider_state := tt;
          trace := [E_GetJWSKey (decoded_header "eyJhbGciOiJub25lIn0")] |}
       (fst (base64url_safeDecode "eyJhbGciOiJub25lIn0"))
       (decoded_header "eyJhbGciOiJub25lIn0")
       (K_NoneKeyType NoneKey) None _ _ _ _ _))
    _ _ (fst (base64url_safeDecode "AA")) (list_byte_of_string "hello") _ _);
    reflexivity.
Defined.

(** C1, as stated, fails: the header declares the algorithm none and the
    provider returns [NoneKey], yet the call fails, because the signature
    segment is decoded before the algorithm is looked at. *)
Lemma none_with_NoneKey_can_fail :
  Alg (decoded_header "eyJhbGciOiJub25lIn0") = ALG_NONE
  /\ base64url_safeDecode "aGVsbG8" = (list_byte_of_string "hello", None)
  /\ fst (run "eyJhbGciOiJub25lIn0.aGVsbG8.!!!"
              (ProviderFromKey (K_NoneKeyType NoneKey)))
     = Returns None (Some "Malformed JWS signature: illegal base64 data").
Proof.
  repeat split; reflexivity.
Qed.

(** ** The header that reaches the Key Provider *)

(** The wire names [typ], [cty] and [jwk] select no field of [Header]: the
    tag [typ] is carried by two fields, which hide each other, no field is
    tagged [cty], and the field [Jwk] is tagged [jkw]. *)
Lemma typ_cty_jwk_select_no_field :
  find_field "typ" = None /\ find_field "cty" = None
  /\ find_field "jwk" = None /\ find_field "jkw" = Some F_Jwk.
Proof. repeat split; reflexivity. Qed.

Lemma find_field_never_Typ_Cty :
  forall (key : string) (f : HeaderField),
    find_field key = Some f -> f <> F_Typ /\ f <> F_Cty.
Proof.
  intros key f. unfold find_field.
  destruct (find _ typeFields) as [ft|] eqn:Hexact.
  - intros [= <-]. apply find_some in Hexact. destruct Hexact as [Hin _].
    simpl in Hin. intuition (subst; simpl in *; congruence).
  - clear Hexact.
    destruct (find _ typeFields) as [ft|] eqn:Hfold; [|discriminate].
    intros [= <-]. apply find_some in Hfold. destruct Hfold as [Hin _].
    simpl in Hin. intuition (subst; simpl in *; congruence).
Qed.

Lemma decode_object_keeps_Typ_Cty :
  forall (members : list (string * JSON)) (h : Header) (saved : option error),
    Typ (fst (decode_object members h saved)) = Typ h
    /\ Cty (fst (decode_object members h saved)) = Cty h.
Proof.
  induction members as [|[key v] rest IH]; intros h saved; simpl.
  - split; reflexivity.
  - destruct (find_field key) as [f|] eqn:Hf; [|apply IH].
    apply find_field_never_Typ_Cty in Hf. destruct Hf as [HT HC].
    destruct v; try apply IH.
    destruct (IH (set_field f s h) saved) as [-> ->].
    destruct f; try contradiction; split; reflexivity.
Qed.

(** Whatever the header segment holds, the fields [Typ] and [Cty] of the
    header that [json.Unmarshal] fills are empty. *)
Lemma unmarshalled_Typ_Cty_are_empty :
  forall (json_scan : list byte -> JSON + error) (data : list byte),
    Typ (fst (json_Unmarshal json_scan data zero_Header)) = EmptyString
    /\ Cty (fst (json_Unmarshal json_scan data zero_Header)) = EmptyString.
Proof.
  intros json_scan data. unfold json_Unmarshal.
  destruct (json_scan data) as [v|e]; [|split; reflexivity].
  destruct v; try (split; reflexivity).
  apply (decode_object_keeps_Typ_Cty members zero_Header None).
Qed.

(** C4 fails on the code: the header segment below holds a JSON object
    with all nine wire fields, and the header that reaches the Key Provider
    has none of the values of [typ], [cty] and [jwk]; the other six fields
    carry theirs. *)
Theorem typ_cty_jwk_do_not_reach_the_provider :
  let segment :=
    "eyJhbGciOiJub25lIiwidHlwIjoiSldUIiwiY3R5IjoianNvbiIsImprdSI6InUxIiwiandrIjoiazEiLCJ4NXUiOiJ1MiIsIng1dCI6InQxIiwieDVjIjoiYzEiLCJraWQiOiJrMiJ9" in
  scan_JSON (fst (base64url_safeDecode segment))
  = inl (J_object [("alg", J_string "none"); ("typ", J_string "JWT");
                   ("cty", J_string "json"); ("jku", J_string "u1");
                   ("jwk", J_string "k1"); ("x5u", J_string "u2");
                   ("x5t", J_string "t1"); ("x5c", J_string "c1");
                   ("kid", J_string "k2")])
  /\ trace (snd (run (segment ++ ".aGVsbG8.AA")
                     (ProviderFromKey (K_NoneKeyType NoneKey))))
     = [E_GetJWSKey {| Alg := "none"; Typ := EmptyString; Cty := EmptyString;
                       Jku := "u1"; Jwk := EmptyString; X5u := "u2";
                       X5t := "t1"; X5c := "c1"; Kid := "k2" |}].
Proof.
  split; vm_compute; reflexivity.
Qed.

(** ** The engine on concrete tokens *)

(** An input of two segments is malformed. *)
Lemma malformed_iff_not_three_segments_witness :
  length (strings_Split "eyJhbGciOiJub25lIn0.aGVsbG8" dot) <> 3
  /\ fst (run "eyJhbGciOiJub25lIn0.aGVsbG8"
              (ProviderFromKey (K_NoneKeyType NoneKey)))
     = Returns None (Some "Malformed JWS").
Proof.
  assert (H : length (strings_Split "eyJhbGciOiJub25lIn0.aGVsbG8" dot) <> 3)
    by (simpl; lia).
  split; [exact H|].
  apply (proj1 (malformed_iff_not_three_segments unit base64url_safeDecode
                  scan_JSON standin_sha256 standin_sha512 standin_hmac_sha256
                  standin_rsa_VerifyPKCS1v15 standin_ecdsa_Verify
                  "eyJhbGciOiJub25lIn0.aGVsbG8"
                  (ProviderFromKey (K_NoneKeyType NoneKey)) initial_world)).
  exact H.
Defined.

(** A token whose algorithm is unknown, with a key and a signature that
    decode. *)
Lemma unknown_algorithm_is_named_witness :
  run "eyJhbGciOiJYWVo5OTkifQ.aGVsbG8.AA" (ProviderFromKey (K_bytes []))
  = (Returns None (Some "Unknown signature algorithm: XYZ999"),
     {| provider_state := tt;
        trace := [E_GetJWSKey (decoded_header "eyJhbGciOiJYWVo5OTkifQ")] |}).
Proof.
  refine (unknown_algorithm_is_named unit base64url_safeDecode scan_JSON
            standin_sha256 standin_sha512 standin_hmac_sha256
            standin_rsa_VerifyPKCS1v15 standin_ecdsa_Verify
            "eyJhbGciOiJYWVo5OTkifQ.aGVsbG8.AA"
            "eyJhbGciOiJYWVo5OTkifQ" "aGVsbG8" "AA"
            (ProviderFromKey (K_bytes [])) initial_world
            {| provider_state := tt;
               trace := [E_GetJWSKey (decoded_header "eyJhbGciOiJYWVo5OTkifQ")] |}
            (fst (base64url_safeDecode "eyJhbGciOiJYWVo5OTkifQ"))
            (fst (base64url_safeDecode "AA"))
            (decoded_header "eyJhbGciOiJYWVo5OTkifQ") (K_bytes [])
            _ _ _ _ _ _); try reflexivity.
  vm_compute. intuition discriminate.
Defined.

(** C7, as stated, fails: the header carries the algorithm XYZ999, and the
    call fails with another error than the one that names it, when the
    signature segment is not valid transport encoding, and when the provider
    finds no key. *)
Lemma unknown_algorithm_can_go_unnamed :
  Alg (decoded_header "eyJhbGciOiJYWVo5OTkifQ") = "XYZ999"
  /\ fst (run "eyJhbGciOiJYWVo5OTkifQ.aGVsbG8.!!!"
              (ProviderFromKey (K_bytes [])))
     = Returns None (Some "Malformed JWS signature: illegal base64 data")
  /\ fst (run "eyJhbGciOiJYWVo5OTkifQ.aGVsbG8.AA" failing_provider)
     = Returns None (Some "Failed to acquire public key: no such key").
Proof.
  repeat split; reflexivity.
Qed.

(** An ES256 token whose signature decodes to one byte. *)
Lemma ecdsa_signature_length_is_checked_first_witness :
  length (fst (base64url_safeDecode "AA")) <> 64
  /\ run "eyJhbGciOiJFUzI1NiJ9.aGVsbG8.AA"
         (ProviderFromKey (K_ecdsa_PublicKey (ref sample_ecdsa_PublicKey)))
     = (Returns None (Some "Signature verification failed"),
        {| provider_state := tt;
           trace := [E_GetJWSKey (decoded_header "eyJhbGciOiJFUzI1NiJ9")] |}).
Proof.
  assert (H : length (fst (base64url_safeDecode "AA")) <> 64)
    by (vm_compute; lia).
  split; [exact H|].
  refine (proj1
    (ecdsa_signature_length_is_checked_first unit base64url_safeDecode
       scan_JSON standin_sha256 standin_sha512 standin_hmac_sha256
       standin_rsa_VerifyPKCS1v15 standin_ecdsa_Verify
       "eyJhbGciOiJFUzI1NiJ9.aGVsbG8.AA" "eyJhbGciOiJFUzI1NiJ9" "aGVsbG8" "AA"
       (ProviderFromKey (K_ecdsa_PublicKey (ref sample_ecdsa_PublicKey)))
       initial_world
       {| provider_state := tt;
          trace := [E_GetJWSKey (decoded_header "eyJhbGciOiJFUzI1NiJ9")] |}
       (fst (base64url_safeDecode "eyJhbGciOiJFUzI1NiJ9"))
       (fst (base64url_safeDecode "AA"))
       (decoded_header "eyJhbGciOiJFUzI1NiJ9")
       (K_ecdsa_PublicKey (ref sample_ecdsa_PublicKey)) 64
       _ _ _ _ _ _ _ H)); try reflexivity.
  - left. split; reflexivity.
  - left. exists (ref sample_ecdsa_PublicKey). reflexivity.
Defined.

(** A header segment that is not base64, and one that decodes to an
    unfinished JSON object. *)
Lemma header_decoding_fails_closed_witness :
  (base64url_safeDecode "!!!" = ([], Some "illegal base64 data")
   /\ run "!!!.aGVsbG8.AA" (ProviderFromKey (K_NoneKeyType NoneKey))
      = (Returns None (Some "Malformed JWS header: illegal base64 data"),
         initial_world))
  /\ (scan_JSON (fst (base64url_safeDecode "eyJhbGciOiJub25lIg"))
      = inr "json: syntax error"
      /\ run "eyJhbGciOiJub25lIg.aGVsbG8.AA"
             (ProviderFromKey (K_NoneKeyType NoneKey))
         = (Returns None (Some "Failed to decode header: json: syntax error"),
            initial_world)).
Proof.
  split.
  - split; [reflexivity|].
    destruct (proj1
      (header_decoding_fails_closed unit base64url_safeDecode
         scan_JSON standin_sha256 standin_sha512 standin_hmac_sha256
         standin_rsa_VerifyPKCS1v15 standin_ecdsa_Verify
         "!!!.aGVsbG8.AA" (ProviderFromKey (K_NoneKeyType NoneKey))
         initial_world [])
      "illegal base64 data" eq_refl) as (Hw & _ & Hmsg).
    specialize (Hmsg eq_refl).
    rewrite (surjective_pairing (run _ _)). unfold run.
    rewrite Hw, Hmsg. reflexivity.
  - split; [reflexivity|].
    destruct (proj1 (proj2
      (header_decoding_fails_closed unit base64url_safeDecode
         scan_JSON standin_sha256 standin_sha512 standin_hmac_sha256
         standin_rsa_VerifyPKCS1v15 standin_ecdsa_Verify
         "eyJhbGciOiJub25lIg.aGVsbG8.AA"
         (ProviderFromKey (K_NoneKeyType NoneKey))
         initial_world (fst (base64url_safeDecode "eyJhbGciOiJub25lIg"))))
      "json: syntax error" eq_refl eq_refl) as (Hw & _ & Hmsg).
    specialize (Hmsg eq_refl).
    rewrite (surjective_pairing (run _ _)). unfold run.
    rewrite Hw, Hmsg. reflexivity.
Defined.

(** An HS256 token: after the provider call, the one event of the call
    is the HMAC of the two encoded segments joined by the dot. *)
Lemma digest_input_is_encoded_header_dot_payload_witness :
  trace (snd (run "eyJhbGciOiJIUzI1NiJ9.aGVsbG8.Zg"
                  (ProviderFromKey (K_bytes (list_byte_of_string "secret")))))
  = [E_GetJWSKey (decoded_header "eyJhbGciOiJIUzI1NiJ9");
     E_Sum (HMAC_SHA256 (list_byte_of_string "secret"))
       (list_byte_of_string "eyJhbGciOiJIUzI1NiJ9.aGVsbG8")].
Proof.
  refine (proj1 (proj1
    (proj1
       (digest_input_is_encoded_header_dot_payload unit
          base64url_safeDecode scan_JSON
          standin_sha256 standin_sha512 standin_hmac_sha256
          standin_rsa_VerifyPKCS1v15 standin_ecdsa_Verify
          "eyJhbGciOiJIUzI1NiJ9.aGVsbG8.Zg"
          "eyJhbGciOiJIUzI1NiJ9" "aGVsbG8" "Zg"
          (ProviderFromKey (K_bytes (list_byte_of_string "secret")))
          initial_world eq_refl)
       (fst (base64url_safeDecode "eyJhbGciOiJIUzI1NiJ9"))
       (fst (base64url_safeDecode "Zg"))
       (decoded_header "eyJhbGciOiJIUzI1NiJ9")
       (K_bytes (list_byte_of_string "secret"))
       {| provider_state := tt;
          trace := [E_GetJWSKey (decoded_header "eyJhbGciOiJIUzI1NiJ9")] |}
       _ _ _ _)
    (list_byte_of_string "secret") _ _)); reflexivity.
Defined.

(** * Further properties of the engine *)

Section MoreProperties.

Variable S : Type.
Variable safeDecode : string -> list byte * option error.
Variable json_scan : list byte -> JSON + error.
Variable sha256_Sum : list byte -> list byte.
Variable sha512_Sum : list byte -> list byte.
Variable hmac_sha256_Sum : list byte -> list byte -> list byte.
Variable rsa_VerifyPKCS1v15 :
  rsa_PublicKey -> list byte -> list byte -> option error.
Variable ecdsa_Verify : ecdsa_PublicKey -> list byte -> Z -> Z -> bool.

Let engine := VerifyAndDecode S safeDecode json_scan sha256_Sum sha512_Sum
                hmac_sha256_Sum rsa_VerifyPKCS1v15 ecdsa_Verify.
Let unmarshal := json_Unmarshal json_scan.

(** The segments of the input, by cases on their number. *)
Ltac by_segments jws Hsplit :=
  subst engine; subst unmarshal; unfold VerifyAndDecode;
  destruct (strings_Split jws dot) as [|?h [|?p [|?s [|? ?]]]] eqn:Hsplit;
  cbn [length Nat.eqb negb nth fst snd].

Ltac booleans :=
  repeat match goal with
         | H : negb _ = false |- _ => apply negb_false_iff in H
         | H : negb _ = true |- _ => apply negb_true_iff in H
         | H : hmac_Equal _ _ = true |- _ => apply hmac_Equal_true in H
         | H : String.eqb _ _ = true |- _ => apply String.eqb_eq in H
         | H : Nat.eqb _ _ = true |- _ => apply Nat.eqb_eq in H
         | H : (_ || _)%bool = true |- _ => apply orb_true_iff in H
         end.

Lemma key_is_NoneKey_true :
  forall key, key_is_NoneKey key = true -> key = K_NoneKeyType NoneKey.
Proof.
  intros key. destruct key; simpl; try discriminate.
  intros H. apply Z.eqb_eq in H. congruence.
Qed.

(** A call that returns no error returns a payload, and it does so only
    after every step has succeeded: the input has three segments, all three
    are valid transport encoding, the header parses, the provider returns a
    key without an error, the algorithm is one of the five supported ones
    and the key has the type that the algorithm asks for.  The payload is
    the decoding of the second segment. *)
Theorem success_means_every_step_succeeded :
  forall (jws : string) (kp : KeyProvider S) (w : World S)
         (result : option (list byte)),
    fst (engine jws kp w) = Returns result None ->
    exists (h p s : string) (data sig payload : list byte)
           (header : Header) (key : PublicKey),
      strings_Split jws dot = [h; p; s]
      /\ safeDecode h = (data, None)
      /\ unmarshal data zero_Header = (header, None)
      /\ fst (GetJWSKey kp header (provider_state w)) = (key, None)
      /\ safeDecode s = (sig, None)
      /\ safeDecode p = (payload, None)
      /\ result = Some payload
      /\ ((Alg header = ALG_NONE /\ key = K_NoneKeyType NoneKey)
          \/ (Alg header = ALG_HS256 /\ exists b, key = K_bytes b)
          \/ (Alg header = ALG_RS256
              /\ ((exists pub, key = K_rsa_PublicKey (ref pub))
                  \/ (exists priv, key = K_rsa_PrivateKey (ref priv))))
          \/ ((Alg header = ALG_ES256 \/ Alg header = ALG_ES512)
              /\ ((exists pub, key = K_ecdsa_PublicKey (ref pub))
                  \/ (exists priv, key = K_ecdsa_PrivateKey (ref priv))))).
Proof.
  intros jws kp w result. by_segments jws Hsplit; try discriminate.
  unfold call_GetJWSKey, hash_Sum.
  repeat (case_split; cbn [fst snd]); try discriminate.
  all: intros [= <-]; booleans.
  all: do 8 eexists.
  all: repeat match goal with |- _ /\ _ => split end;
       try reflexivity; try eassumption.
  all: try (match goal with
            | H : GetJWSKey _ _ _ = _ |- _ => rewrite H; reflexivity
            end).
  all: first
         [ solve [left; split;
                  [assumption|apply key_is_NoneKey_true; assumption]]
         | solve [right; left; split; [assumption|eexists; reflexivity]]
         | solve [right; right; left; split; [assumption|eauto]]
         | solve [right; right; right; split; [auto|eauto]] ].
Qed.


(** Entering the function with an input of three segments whose header
    segment decodes and parses. *)
Ltac enter3 Hsplit Hhdr Hjson :=
  subst engine; subst unmarshal; unfold VerifyAndDecode;
  rewrite Hsplit; cbn [length Nat.eqb negb nth];
  rewrite Hhdr; rewrite Hjson.

(** What a call adds to the trace: nothing when the input is malformed or
    its header does not decode; otherwise the one call of the provider,
    with the header that [json.Unmarshal] filled, followed by events of the
    [crypto] packages only. *)
Lemma trace_of_a_call :
  forall (jws : string) (kp : KeyProvider S) (w : World S),
    snd (engine jws kp w) = w
    \/ exists (data : list byte) (header : Header) (rest : list Event),
         length (strings_Split jws dot) = 3
         /\ safeDecode (nth 0 (strings_Split jws dot) EmptyString)
            = (data, None)
         /\ unmarshal data zero_Header = (header, None)
         /\ trace (snd (engine jws kp w))
            = (trace w ++ E_GetJWSKey header :: rest)%list
         /\ (forall h', ~ In (E_GetJWSKey h') rest)
         /\ provider_state (snd (engine jws kp w))
            = snd (GetJWSKey kp header (provider_state w)).
Proof.
  intros jws kp w. subst engine; subst unmarshal. unfold VerifyAndDecode.
  destruct (Nat.eqb (length (strings_Split jws dot)) 3) eqn:Hlen;
    cbn [negb]; [|left; reflexivity].
  apply Nat.eqb_eq in Hlen.
  destruct (safeDecode (nth 0 (strings_Split jws dot) EmptyString))
    as [data [e|]] eqn:Hhdr; [left; reflexivity|].
  destruct (json_Unmarshal json_scan data zero_Header)
    as [header [e|]] eqn:Hjson; [left; reflexivity|].
  right. exists data, header.
  unfold call_GetJWSKey, hash_Sum.
  destruct (GetJWSKey kp header (provider_state w)) as [[key kerr] st].
  repeat (case_split; cbn [fst snd]).
  all: unfold record; cbn [trace provider_state].
  all: rewrite <- ?app_assoc; cbn [app].
  all: eexists; repeat split; try reflexivity; try assumption.
  all: intros h' Hin; simpl in Hin;
       repeat match type of Hin with
              | _ \/ _ => destruct Hin as [Hin|Hin]
              end;
       try contradiction; discriminate Hin.
Qed.

(** The Key Provider is called at most once in a call.  It is not
    called at all, and the world is left as it was, when the input does not
    have three segments, or its header segment does not decode, or the
    decoded header does not parse.  Otherwise it is called exactly once: the
    call is the first event, it is made with the parsed header, no other
    event of the call is a provider call, and the state in which the
    provider leaves itself is the state at the end. *)
Theorem provider_is_called_at_most_once :
  forall (jws : string) (kp : KeyProvider S) (w : World S),
    let parts := strings_Split jws dot in
    let decoded := safeDecode (nth 0 parts EmptyString) in
    let parsed := unmarshal (fst decoded) zero_Header in
    (length parts <> 3 \/ snd decoded <> None \/ snd parsed <> None ->
     snd (engine jws kp w) = w)
    /\ (length parts = 3 ->
        snd decoded = None ->
        snd parsed = None ->
        exists rest : list Event,
          trace (snd (engine jws kp w))
          = (trace w ++ E_GetJWSKey (fst parsed) :: rest)%list
          /\ (forall h', ~ In (E_GetJWSKey h') rest)
          /\ provider_state (snd (engine jws kp w))
             = snd (GetJWSKey kp (fst parsed) (provider_state w))).
Proof.
  intros jws kp w parts decoded parsed.
  subst parsed decoded engine unmarshal. unfold VerifyAndDecode.
  fold parts.
  destruct (Nat.eqb (length parts) 3) eqn:Hlen; cbn [negb].
  2: { apply Nat.eqb_neq in Hlen. split; [reflexivity|].
       intros H3; contradiction. }
  apply Nat.eqb_eq in Hlen.
  destruct (safeDecode (nth 0 parts EmptyString)) as [data [e|]];
    cbn [fst snd].
  { split; [reflexivity|]. intros _ H; discriminate H. }
  destruct (json_Unmarshal json_scan data zero_Header) as [header [e|]];
    cbn [fst snd].
  { split; [reflexivity|]. intros _ _ H; discriminate H. }
  split; [intros [H|[H|H]]; contradiction|]. intros _ _ _.
  unfold call_GetJWSKey, hash_Sum.
  destruct (GetJWSKey kp header (provider_state w)) as [[key kerr] st].
  repeat (case_split; cbn [fst snd]).
  all: unfold record; cbn [trace provider_state].
  all: rewrite <- ?app_assoc; cbn [app].
  all: eexists; repeat split; try reflexivity.
  all: intros h' Hin; simpl in Hin;
       repeat match type of Hin with
              | _ \/ _ => destruct Hin as [Hin|Hin]
              end;
       try contradiction; discriminate Hin.
Qed.

(** The header that reaches the Key Provider never carries a token type
    or a content type: its fields [Typ] and [Cty] are empty in every call
    of the provider, whatever the header segment holds. *)
Theorem provider_never_sees_typ_or_cty :
  forall (jws : string) (kp : KeyProvider S) (w : World S)
         (added : list Event) (header : Header),
    trace (snd (engine jws kp w)) = (trace w ++ added)%list ->
    In (E_GetJWSKey header) added ->
    Typ header = EmptyString /\ Cty header = EmptyString.
Proof.
  intros jws kp w added header Ht Hin.
  destruct (trace_of_a_call jws kp w)
    as [Hw|(data & header' & rest & _ & Hd & Hj & Ht' & Hn & _)].
  - rewrite Hw in Ht. rewrite <- (app_nil_r (trace w)) in Ht at 1.
    apply app_inv_head in Ht. subst added. contradiction.
  - rewrite Ht' in Ht. apply app_inv_head in Ht. subst added.
    destruct Hin as [Heq|Hin]; [|exfalso; exact (Hn _ Hin)].
    injection Heq as <-.
    pose proof (unmarshalled_Typ_Cty_are_empty json_scan data) as Hempty.
    subst unmarshal. rewrite Hj in Hempty. exact Hempty.
Qed.

(** When the Key Provider returns an error, [VerifyAndDecode] fails with
    "Failed to acquire public key: " followed by the text of that error, and
    does nothing more: the key returned beside the error is not looked at,
    the signature segment is not decoded and nothing is hashed. *)
Theorem lookup_error_is_propagated :
  forall (jws h p s : string) (kp : KeyProvider S) (w w' : World S)
         (data : list byte) (header : Header) (key : PublicKey) (e : error),
    strings_Split jws dot = [h; p; s] ->
    safeDecode h = (data, None) ->
    unmarshal data zero_Header = (header, None) ->
    call_GetJWSKey S kp header w = ((key, Some e), w') ->
    engine jws kp w
    = (Returns None (Some ("Failed to acquire public key: " ++ e)), w')
    /\ trace w' = (trace w ++ [E_GetJWSKey header])%list.
Proof.
  intros jws h p s kp w w' data header key e Hsplit Hhdr Hjson Hkey.
  split.
  - enter3 Hsplit Hhdr Hjson. rewrite Hkey. reflexivity.
  - unfold call_GetJWSKey in Hkey.
    destruct (GetJWSKey kp header (provider_state w)) as [r st].
    injection Hkey as _ <-. reflexivity.
Qed.

(** A signature segment that is not valid transport encoding makes the
    call fail with "Malformed JWS signature: ..." for every algorithm, the
    algorithm none and unknown algorithms included, and for every key: the
    segment is decoded before the algorithm is looked at. *)
Theorem undecodable_signature_fails_for_every_algorithm :
  forall (jws h p s : string) (kp : KeyProvider S) (w w' : World S)
         (data sig : list byte) (header : Header) (key : PublicKey)
         (e : error),
    strings_Split jws dot = [h; p; s] ->
    safeDecode h = (data, None) ->
    unmarshal data zero_Header = (header, None) ->
    call_GetJWSKey S kp header w = ((key, None), w') ->
    safeDecode s = (sig, Some e) ->
    engine jws kp w
    = (Returns None (Some ("Malformed JWS signature: " ++ e)), w').
Proof.
  intros jws h p s kp w w' data sig header key e Hsplit Hhdr Hjson Hkey Hs.
  enter3 Hsplit Hhdr Hjson. rewrite Hkey, Hs. reflexivity.
Qed.

(** A key whose type does not fit the algorithm of the header is refused
    with an error that names the type of the key, and nothing is hashed or
    verified with it: HS256 takes a byte slice only, RS256 a pointer to an
    RSA public or private key only, ES256 and ES512 a pointer to an ECDSA
    public or private key only. *)
Theorem key_of_wrong_type_is_refused :
  forall (jws h p s : string) (kp : KeyProvider S) (w w' : World S)
         (data sig : list byte) (header : Header) (key : PublicKey),
    strings_Split jws dot = [h; p; s] ->
    safeDecode h = (data, None) ->
    unmarshal data zero_Header = (header, None) ->
    call_GetJWSKey S kp header w = ((key, None), w') ->
    safeDecode s = (sig, None) ->
    (Alg header = ALG_HS256 ->
     (forall b, key <> K_bytes b) ->
     engine jws kp w
     = (Returns None
          (Some ("Expected symmetric ([]byte) key. Got " ++ fmt_T key)), w'))
    /\ (Alg header = ALG_RS256 ->
        (forall k, key <> K_rsa_PublicKey k) ->
        (forall k, key <> K_rsa_PrivateKey k) ->
        engine jws kp w
        = (Returns None (Some ("Expected RSA key. Got " ++ fmt_T key)), w'))
    /\ (Alg header = ALG_ES256 \/ Alg header = ALG_ES512 ->
        (forall k, key <> K_ecdsa_PublicKey k) ->
        (forall k, key <> K_ecdsa_PrivateKey k) ->
        engine jws kp w
        = (Returns None (Some ("Expected ECDSA key. Got " ++ fmt_T key)), w')).
Proof.
  intros jws h p s kp w w' data sig header key Hsplit Hhdr Hjson Hkey Hs.
  enter3 Hsplit Hhdr Hjson. rewrite Hkey, Hs.
  split; [|split].
  - intros -> Hb. cbn. destruct key; try reflexivity.
    exfalso. exact (Hb _ eq_refl).
  - intros -> Hpub Hpriv. cbn. destruct key; try reflexivity.
    + exfalso. exact (Hpub _ eq_refl).
    + exfalso. exact (Hpriv _ eq_refl).
  - intros [-> | ->] Hpub Hpriv; cbn; destruct key; try reflexivity.
    all: exfalso; first [exact (Hpub _ eq_refl)|exact (Hpriv _ eq_refl)].
Qed.

(** What the statements after the switch return: the decoded payload, or
    the error of its decoding. *)
Ltac payload_step :=
  match goal with
  | |- context [safeDecode ?p] => destruct (safeDecode p) as [? [?|]]
  end; reflexivity.

(** HS256 with a byte-slice key: the call accepts the token exactly when
    the decoded signature is the HMAC-SHA256, under that key, of the encoded
    header segment, the dot and the encoded payload segment.  It then
    returns the decoded payload, or "Malformed JWS payload: ..." when the
    payload segment does not decode; otherwise it fails with "Signature
    verification failed". *)
Theorem HS256_accepts_exactly_the_matching_mac :
  forall (jws h p s : string) (kp : KeyProvider S) (w w' : World S)
         (data sig symmetricKey : list byte) (header : Header),
    strings_Split jws dot = [h; p; s] ->
    safeDecode h = (data, None) ->
    unmarshal data zero_Header = (header, None) ->
    Alg header = ALG_HS256 ->
    call_GetJWSKey S kp header w = ((K_bytes symmetricKey, None), w') ->
    safeDecode s = (sig, None) ->
    let input := (list_byte_of_string h ++ list_byte_of_string "."
                    ++ list_byte_of_string p)%list in
    (hmac_sha256_Sum symmetricKey input = sig ->
     fst (engine jws kp w)
     = match safeDecode p with
       | (payload, None) => Returns (Some payload) None
       | (_, Some e) => Returns None (Some ("Malformed JWS payload: " ++ e))
       end)
    /\ (hmac_sha256_Sum symmetricKey input <> sig ->
        fst (engine jws kp w)
        = Returns None (Some "Signature verification failed")).
Proof.
  intros jws h p s kp w w' data sig symmetricKey header
         Hsplit Hhdr Hjson Halg Hkey Hs input.
  enter3 Hsplit Hhdr Hjson. rewrite Hkey, Hs, Halg.
  cbn [String.eqb Ascii.eqb Bool.eqb ALG_NONE ALG_HS256].
  unfold hash_Sum.
  cbn [hash_fn hash_written io_WriteString hash_New digest app fst snd].
  rewrite <- app_assoc. fold input. unfold hmac_Equal.
  destruct (list_eq_dec Byte.byte_eq_dec (hmac_sha256_Sum symmetricKey input)
              sig) as [Heq|Hne]; cbn [negb fst].
  - split; [intros _|intros Hn; contradiction]. payload_step.
  - split; [intros He; contradiction|intros _; reflexivity].
Qed.

(** RS256 with an RSA key, public or private: the call accepts the token
    exactly when [rsa.VerifyPKCS1v15] accepts the decoded signature for the
    SHA-256 digest of the encoded header segment, the dot and the encoded
    payload segment, under the public key (of a private key, its public
    part).  When the check fails the error is "Signature verification
    failed", whatever error the check itself returned. *)
Theorem RS256_accepts_exactly_the_valid_signature :
  forall (jws h p s : string) (kp : KeyProvider S) (w w' : World S)
         (data sig : list byte) (header : Header) (key : PublicKey)
         (pub : rsa_PublicKey),
    strings_Split jws dot = [h; p; s] ->
    safeDecode h = (data, None) ->
    unmarshal data zero_Header = (header, None) ->
    Alg header = ALG_RS256 ->
    call_GetJWSKey S kp header w = ((key, None), w') ->
    key = K_rsa_PublicKey (ref pub)
    \/ (exists priv, key = K_rsa_PrivateKey (ref priv)
                     /\ rsa_PublicKey_of priv = pub) ->
    safeDecode s = (sig, None) ->
    let input := (list_byte_of_string h ++ list_byte_of_string "."
                    ++ list_byte_of_string p)%list in
    (rsa_VerifyPKCS1v15 pub (sha256_Sum input) sig = None ->
     fst (engine jws kp w)
     = match safeDecode p with
       | (payload, None) => Returns (Some payload) None
       | (_, Some e) => Returns None (Some ("Malformed JWS payload: " ++ e))
       end)
    /\ (rsa_VerifyPKCS1v15 pub (sha256_Sum input) sig <> None ->
        fst (engine jws kp w)
        = Returns None (Some "Signature verification failed")).
Proof.
  intros jws h p s kp w w' data sig header key pub
         Hsplit Hhdr Hjson Halg Hkey Hty Hs input.
  enter3 Hsplit Hhdr Hjson. rewrite Hkey, Hs, Halg.
  cbn [String.eqb Ascii.eqb Bool.eqb ALG_NONE ALG_HS256 ALG_RS256].
  destruct Hty as [->|(priv & -> & <-)];
    unfold hash_Sum;
    cbn [hash_fn hash_written io_WriteString hash_New digest app fst snd];
    rewrite <- app_assoc; fold input;
    destruct (rsa_VerifyPKCS1v15 _ (sha256_Sum input) sig) as [e|];
    cbn [fst].
  all: split; intros H; try discriminate H; try (exfalso; apply H; reflexivity);
       try reflexivity.
  all: payload_step.
Qed.

(** ES256 and ES512 with an ECDSA key, public or private: the decoded
    signature must be 64 (ES256) or 132 (ES512) bytes long; its first half
    is R and its second half is S, as big-endian integers; the call accepts
    the token exactly when [ecdsa.Verify] accepts (R, S) for the SHA-256
    (ES256) or SHA-512 (ES512) digest of the encoded header segment, the dot
    and the encoded payload segment, under the public key (of a private
    key, its public part). *)
Theorem ES_accepts_exactly_the_valid_signature :
  forall (jws h p s : string) (kp : KeyProvider S) (w w' : World S)
         (data sig : list byte) (header : Header) (key : PublicKey)
         (pub : ecdsa_PublicKey) (size : nat)
         (hash : list byte -> list byte),
    strings_Split jws dot = [h; p; s] ->
    safeDecode h = (data, None) ->
    unmarshal data zero_Header = (header, None) ->
    (Alg header = ALG_ES256 /\ size = 32 /\ hash = sha256_Sum)
    \/ (Alg header = ALG_ES512 /\ size = 66 /\ hash = sha512_Sum) ->
    call_GetJWSKey S kp header w = ((key, None), w') ->
    key = K_ecdsa_PublicKey (ref pub)
    \/ (exists priv, key = K_ecdsa_PrivateKey (ref priv)
                     /\ ecdsa_PublicKey_of priv = pub) ->
    safeDecode s = (sig, None) ->
    length sig = size + size ->
    let input := (list_byte_of_string h ++ list_byte_of_string "."
                    ++ list_byte_of_string p)%list in
    let r := big_SetBytes (firstn size sig) in
    let s' := big_SetBytes (skipn size sig) in
    (ecdsa_Verify pub (hash input) r s' = true ->
     fst (engine jws kp w)
     = match safeDecode p with
       | (payload, None) => Returns (Some payload) None
       | (_, Some e) => Returns None (Some ("Malformed JWS payload: " ++ e))
       end)
    /\ (ecdsa_Verify pub (hash input) r s' = false ->
        fst (engine jws kp w)
        = Returns None (Some "Signature verification failed")).
Proof.
  intros jws h p s kp w w' data sig header key pub size hash
         Hsplit Hhdr Hjson Halg Hkey Hty Hs Hlen input r s'.
  enter3 Hsplit Hhdr Hjson. rewrite Hkey, Hs.
  apply Nat.eqb_eq in Hlen.
  destruct Halg as [(-> & -> & ->)|(-> & -> & ->)];
    destruct Hty as [->|(priv & -> & <-)];
    cbn [String.eqb Ascii.eqb Bool.eqb ALG_NONE ALG_HS256 ALG_RS256
         ALG_ES256 ALG_ES512 orb];
    rewrite Hlen; cbn [negb];
    unfold hash_Sum;
    cbn [hash_fn hash_written io_WriteString hash_New digest app fst snd];
    rewrite <- app_assoc; fold input; fold r; fold s';
    match goal with
    | |- context [ecdsa_Verify ?k ?d r s'] =>
        destruct (ecdsa_Verify k d r s')
    end; cbn [negb fst].
  all: split; intros H; try discriminate H; try reflexivity.
  all: payload_step.
Qed.

(** A typed nil pointer to a private key makes the call panic: for RS256
    with a nil [*rsa.PrivateKey], and for ES256 and ES512 with a nil
    [*ecdsa.PrivateKey], taking the address of the public part dereferences
    the pointer, before anything is hashed. *)
Theorem nil_private_key_panics :
  forall (jws h p s : string) (kp : KeyProvider S) (w w' : World S)
         (data sig : list byte) (header : Header) (key : PublicKey),
    strings_Split jws dot = [h; p; s] ->
    safeDecode h = (data, None) ->
    unmarshal data zero_Header = (header, None) ->
    call_GetJWSKey S kp header w = ((key, None), w') ->
    safeDecode s = (sig, None) ->
    (Alg header = ALG_RS256 /\ key = K_rsa_PrivateKey nil_ptr)
    \/ ((Alg header = ALG_ES256 \/ Alg header = ALG_ES512)
        /\ key = K_ecdsa_PrivateKey nil_ptr) ->
    engine jws kp w = (Panics nil_dereference, w').
Proof.
  intros jws h p s kp w w' data sig header key Hsplit Hhdr Hjson Hkey Hs Hc.
  enter3 Hsplit Hhdr Hjson. rewrite Hkey, Hs.
  destruct Hc as [[-> ->]|[[-> | ->] ->]]; reflexivity.
Qed.

(** A private key verifies exactly what its public part verifies: with
    the single-key provider, a call succeeds with a pointer to an RSA (or
    ECDSA) private key exactly when it succeeds with a pointer to the public
    key inside it, and returns the same payload. *)
Theorem private_key_verifies_like_its_public_part :
  forall (jws : string) (w : World S) (payload : list byte)
         (rsa_priv : rsa_PrivateKey) (ecdsa_priv : ecdsa_PrivateKey),
    (fst (engine jws (ProviderFromKey (K_rsa_PrivateKey (ref rsa_priv))) w)
     = Returns (Some payload) None
     <-> fst (engine jws
                (ProviderFromKey
                   (K_rsa_PublicKey (ref (rsa_PublicKey_of rsa_priv)))) w)
         = Returns (Some payload) None)
    /\ (fst (engine jws
               (ProviderFromKey (K_ecdsa_PrivateKey (ref ecdsa_priv))) w)
        = Returns (Some payload) None
        <-> fst (engine jws
                   (ProviderFromKey
                      (K_ecdsa_PublicKey (ref (ecdsa_PublicKey_of ecdsa_priv))))
                   w)
            = Returns (Some payload) None).
Proof.
  intros jws w payload rsa_priv ecdsa_priv. subst engine.
  unfold VerifyAndDecode, call_GetJWSKey, hash_Sum, ProviderFromKey.
  cbn [GetJWSKey].
  repeat (case_split; cbn [fst snd key_is_NoneKey negb]).
  all: split; split; intros H; try discriminate H; exact H.
Qed.

(** With the single-key provider of [ProviderFromKey] the key lookup never
    fails, for any key and any input, and the state of the provider is left
    as it was. *)
Theorem single_key_provider_never_fails :
  forall (jws : string) (key : PublicKey) (w : World S) (e : error),
    fst (engine jws (ProviderFromKey key) w)
    <> Returns None (Some ("Failed to acquire public key: " ++ e))
    /\ provider_state (snd (engine jws (ProviderFromKey key) w))
       = provider_state w.
Proof.
  intros jws key w e. subst engine.
  unfold VerifyAndDecode, call_GetJWSKey, hash_Sum, ProviderFromKey.
  cbn [GetJWSKey].
  repeat (case_split; cbn [fst snd]).
  all: split; [intros H; simpl in H; discriminate H|reflexivity].
Qed.

Lemma strings_Split_length :
  forall (s : string) (sep : ascii),
    length (strings_Split s sep)
    = Datatypes.S (count_occ ascii_dec (list_ascii_of_string s) sep).
Proof.
  induction s as [|c rest IH]; intros sep; [reflexivity|].
  cbn [strings_Split list_ascii_of_string count_occ].
  destruct (Ascii.eqb c sep) eqn:Hc.
  - apply Ascii.eqb_eq in Hc. subst c.
    destruct (ascii_dec sep sep); [|contradiction].
    cbn [length]. rewrite IH. reflexivity.
  - apply Ascii.eqb_neq in Hc.
    destruct (ascii_dec c sep); [contradiction|].
    rewrite <- IH.
    destruct (strings_Split rest sep) eqn:Hr; [|reflexivity].
    exfalso. exact (strings_Split_not_nil rest sep Hr).
Qed.

(** [VerifyAndDecode] fails with "Malformed JWS" exactly when the input
    does not hold exactly two dots. *)
Theorem malformed_iff_not_two_dots :
  forall (jws : string) (kp : KeyProvider S) (w : World S),
    fst (engine jws kp w) = Returns None (Some "Malformed JWS")
    <-> count_occ ascii_dec (list_ascii_of_string jws) dot <> 2.
Proof.
  intros jws kp w.
  pose proof (strings_Split_length jws dot) as Hlen.
  subst engine. unfold VerifyAndDecode.
  destruct (Nat.eqb (length (strings_Split jws dot)) 3) eqn:H3; cbn [negb].
  - apply Nat.eqb_eq in H3. split; [|lia].
    unfold call_GetJWSKey, hash_Sum.
    repeat (case_split; cbn [fst snd]); intros H; simpl in H;
      discriminate H.
  - apply Nat.eqb_neq in H3. cbn [fst]. unfold errors_New.
    split; [lia|reflexivity].
Qed.

Lemma strings_Split_concat :
  forall s : string, String.concat "." (strings_Split s dot) = s.
Proof.
  induction s as [|c rest IH]; [reflexivity|].
  cbn [strings_Split].
  pose proof (strings_Split_not_nil rest dot) as Hnn.
  destruct (Ascii.eqb c dot) eqn:Hc.
  - apply Ascii.eqb_eq in Hc. subst c.
    destruct (strings_Split rest dot) as [|seg segs]; [contradiction|].
    change (String.concat "." (EmptyString :: seg :: segs))
      with (String dot (String.concat "." (seg :: segs))).
    rewrite IH. reflexivity.
  - destruct (strings_Split rest dot) as [|seg segs]; [contradiction|].
    destruct segs as [|seg' segs].
    + cbn in IH. cbn. rewrite IH. reflexivity.
    + change (String.concat "." (String c seg :: seg' :: segs))
        with (String c (String.concat "." (seg :: seg' :: segs))).
      rewrite IH. reflexivity.
Qed.

Lemma strings_Split_segments_without_sep :
  forall (s : string) (sep : ascii),
    Forall (fun seg => ~ In sep (list_ascii_of_string seg))
           (strings_Split s sep).
Proof.
  induction s as [|c rest IH]; intros sep; cbn [strings_Split].
  - constructor; [simpl; tauto|constructor].
  - specialize (IH sep). destruct (Ascii.eqb c sep) eqn:Hc.
    + constructor; [simpl; tauto|exact IH].
    + apply Ascii.eqb_neq in Hc.
      destruct (strings_Split rest sep) as [|seg segs].
      * constructor; [|constructor]. simpl. intuition.
      * inversion IH as [|? ? Hseg Hsegs]; subst.
        constructor; [|exact Hsegs]. simpl. intuition.
Qed.

Lemma strings_Split_without_sep :
  forall (a : string) (sep : ascii),
    ~ In sep (list_ascii_of_string a) -> strings_Split a sep = [a].
Proof.
  induction a as [|c a IH]; intros sep Hn; [reflexivity|].
  cbn [strings_Split]. simpl in Hn.
  destruct (Ascii.eqb c sep) eqn:Hc.
  - apply Ascii.eqb_eq in Hc. tauto.
  - rewrite IH by tauto. reflexivity.
Qed.

Lemma strings_Split_app :
  forall (a rest : string) (sep : ascii),
    ~ In sep (list_ascii_of_string a) ->
    strings_Split (a ++ String sep rest) sep = a :: strings_Split rest sep.
Proof.
  induction a as [|c a IH]; intros rest sep Hn.
  - cbn. rewrite Ascii.eqb_refl. reflexivity.
  - cbn [append strings_Split]. simpl in Hn.
    destruct (Ascii.eqb c sep) eqn:Hc.
    + apply Ascii.eqb_eq in Hc. tauto.
    + rewrite IH by tauto. reflexivity.
Qed.

(** The inputs that pass the test on the number of segments: the input
    splits into the three segments [h], [p] and [s] exactly when it is [h],
    a dot, [p], a dot and [s], and none of the three holds a dot. *)
Theorem three_segments_iff_joined_by_dots :
  forall jws h p s : string,
    strings_Split jws dot = [h; p; s]
    <-> (jws = h ++ "." ++ p ++ "." ++ s
         /\ ~ In dot (list_ascii_of_string h)
         /\ ~ In dot (list_ascii_of_string p)
         /\ ~ In dot (list_ascii_of_string s)).
Proof.
  intros jws h p s. split.
  - intros Hsplit.
    pose proof (strings_Split_concat jws) as Hc.
    pose proof (strings_Split_segments_without_sep jws dot) as Hf.
    rewrite Hsplit in Hc, Hf.
    pose proof (Forall_inv Hf) as Hh.
    pose proof (Forall_inv (Forall_inv_tail Hf)) as Hp.
    pose proof (Forall_inv (Forall_inv_tail (Forall_inv_tail Hf))) as Hs.
    split; [symmetry; exact Hc|auto].
  - intros (-> & Hh & Hp & Hs).
    change (h ++ "." ++ p ++ "." ++ s)
      with (h ++ String dot (p ++ String dot s)).
    rewrite strings_Split_app by exact Hh.
    rewrite strings_Split_app by exact Hp.
    rewrite strings_Split_without_sep by exact Hs. reflexivity.
Qed.

(** ** Filling the header *)






(** The member that gives the algorithm is found by its name without
    regard to case: a member is stored into [Alg] exactly when its name
    folds to [ALG]. *)
Theorem alg_member_is_matched_ignoring_case :
  forall key : string,
    find_field key = Some F_Alg <-> foldName key = "ALG".
Proof.
  intros key. unfold find_field.
  change typeFields
    with [(F_Alg, "alg"); (F_Jku, "jku"); (F_Jwk, "jkw"); (F_X5u, "x5u");
          (F_X5t, "x5t"); (F_X5c, "x5c"); (F_Kid, "kid")].
  cbn [find snd fst].
  repeat match goal with
         | |- context [String.eqb ?a key] =>
             destruct (String.eqb_spec a key) as [<-|?]
         end.
  all: try (split; [intros H; try discriminate H; reflexivity
                   |intros H; try discriminate H; reflexivity]).
  change (foldName "alg") with "ALG". change (foldName "jku") with "JKU".
  change (foldName "jkw") with "JKW". change (foldName "x5u") with "X5U".
  change (foldName "x5t") with "X5T". change (foldName "x5c") with "X5C".
  change (foldName "kid") with "KID".
  destruct (String.eqb_spec "ALG" (foldName key)) as [<-|Hne].
  - split; reflexivity.
  - split.
    + repeat match goal with
             | |- context [String.eqb ?a (foldName key)] =>
                 destruct (String.eqb a (foldName key))
             end; intros H; discriminate H.
    + intros H. symmetry in H. contradiction.
Qed.

Lemma decode_object_saved_error_stays :
  forall (members : list (string * JSON)) (h : Header) (e : error),
    snd (decode_object members h (Some e)) = Some e.
Proof.
  induction members as [|[key v] rest IH]; intros h e; [reflexivity|].
  cbn [decode_object].
  destruct (find_field key); [|apply IH].
  destruct v; apply IH.
Qed.

Lemma decode_object_type_error :
  forall (members : list (string * JSON)) (key : string) (v : JSON)
         (f : HeaderField) (h : Header) (saved : option error),
    In (key, v) members ->
    find_field key = Some f ->
    (forall x, v <> J_string x) ->
    v <> J_null ->
    exists e, snd (decode_object members h saved) = Some e.
Proof.
  induction members as [|[k x] rest IH];
    intros key v f h saved Hin Hf Hstr Hnull; [contradiction|].
  cbn [decode_object].
  destruct Hin as [[= -> ->]|Hin].
  - rewrite Hf.
    destruct v;
      try (destruct saved as [e|]; cbn [saveError];
           rewrite decode_object_saved_error_stays; eauto).
    + contradiction.
    + exfalso. exact (Hstr _ eq_refl).
  - destruct (find_field k); [|eapply IH; eassumption].
    destruct x; eapply IH; eassumption.
Qed.

(** A member of the header object that is stored into a field of [Header]
    must be a string or null: a number, a boolean, an array or an object
    under such a name makes the call fail with "Failed to decode header:
    ...", before the Key Provider is called. *)
Theorem header_member_of_wrong_type_is_rejected :
  forall (jws h p s : string) (kp : KeyProvider S) (w : World S)
         (data : list byte) (members : list (string * JSON))
         (key : string) (v : JSON) (f : HeaderField),
    strings_Split jws dot = [h; p; s] ->
    safeDecode h = (data, None) ->
    json_scan data = inl (J_object members) ->
    In (key, v) members ->
    find_field key = Some f ->
    (forall x, v <> J_string x) ->
    v <> J_null ->
    exists e,
      engine jws kp w
      = (Returns None (Some ("Failed to decode header: " ++ e)), w).
Proof.
  intros jws h p s kp w data members key v f
         Hsplit Hhdr Hscan Hin Hf Hstr Hnull.
  destruct (decode_object_type_error members key v f zero_Header None
              Hin Hf Hstr Hnull) as [e He].
  exists e. subst engine. unfold VerifyAndDecode.
  rewrite Hsplit. cbn [length Nat.eqb negb nth]. rewrite Hhdr.
  unfold json_Unmarshal. rewrite Hscan. cbn [decode_value].
  destruct (decode_object members zero_Header None) as [header saved].
  cbn [snd] in He. subst saved. reflexivity.
Qed.


End MoreProperties.

(** ** Further runs of the engine on concrete tokens *)

(** A verified HS256 token: every step has succeeded. *)
Lemma success_means_every_step_succeeded_witness :
  exists (h p s : string) (payload : list byte),
    strings_Split "eyJhbGciOiJIUzI1NiJ9.aGVsbG8.Zg" dot = [h; p; s]
    /\ base64url_safeDecode p = (payload, None)
    /\ Some (list_byte_of_string "hello") = Some payload.
Proof.
  destruct (success_means_every_step_succeeded unit base64url_safeDecode
              scan_JSON standin_sha256 standin_sha512 standin_hmac_sha256
              standin_rsa_VerifyPKCS1v15 standin_ecdsa_Verify
              "eyJhbGciOiJIUzI1NiJ9.aGVsbG8.Zg"
              (ProviderFromKey (K_bytes (list_byte_of_string "secret")))
              initial_world (Some (list_byte_of_string "hello")) eq_refl)
    as (h & p & s & data & sig & payload & header & key
        & H1 & _ & _ & _ & _ & H2 & H3 & _).
  exists h, p, s, payload. auto.
Defined.

(** A header segment that holds [typ] and [cty]. *)
Lemma provider_never_sees_typ_or_cty_witness :
  Typ (decoded_header "eyJhbGciOiJub25lIiwidHlwIjoiSldUIiwiY3R5IjoianNvbiIsImp3ayI6ImsxIiwia2lkIjoiazIifQ")
  = EmptyString
  /\ Cty (decoded_header "eyJhbGciOiJub25lIiwidHlwIjoiSldUIiwiY3R5IjoianNvbiIsImp3ayI6ImsxIiwia2lkIjoiazIifQ")
     = EmptyString.
Proof.
  apply (provider_never_sees_typ_or_cty unit base64url_safeDecode
           scan_JSON standin_sha256 standin_sha512 standin_hmac_sha256
           standin_rsa_VerifyPKCS1v15 standin_ecdsa_Verify
           "eyJhbGciOiJub25lIiwidHlwIjoiSldUIiwiY3R5IjoianNvbiIsImp3ayI6ImsxIiwia2lkIjoiazIifQ.aGVsbG8.AA"
           (ProviderFromKey (K_NoneKeyType NoneKey)) initial_world
           [E_GetJWSKey (decoded_header "eyJhbGciOiJub25lIiwidHlwIjoiSldUIiwiY3R5IjoianNvbiIsImp3ayI6ImsxIiwia2lkIjoiazIifQ")]).
  - reflexivity.
  - left. reflexivity.
Defined.

(** A provider that finds no key. *)
Lemma lookup_error_is_propagated_witness :
  run "eyJhbGciOiJIUzI1NiJ9.aGVsbG8.Zg" failing_provider
  = (Returns None (Some "Failed to acquire public key: no such key"),
     {| provider_state := tt;
        trace := [E_GetJWSKey (decoded_header "eyJhbGciOiJIUzI1NiJ9")] |}).
Proof.
  refine (proj1
    (lookup_error_is_propagated unit base64url_safeDecode
       scan_JSON standin_sha256 standin_sha512 standin_hmac_sha256
       standin_rsa_VerifyPKCS1v15 standin_ecdsa_Verify
       "eyJhbGciOiJIUzI1NiJ9.aGVsbG8.Zg" "eyJhbGciOiJIUzI1NiJ9" "aGVsbG8" "Zg"
       failing_provider initial_world
       {| provider_state := tt;
          trace := [E_GetJWSKey (decoded_header "eyJhbGciOiJIUzI1NiJ9")] |}
       (fst (base64url_safeDecode "eyJhbGciOiJIUzI1NiJ9"))
       (decoded_header "eyJhbGciOiJIUzI1NiJ9") K_nil "no such key"
       _ _ _ _)); reflexivity.
Defined.

(** A signature segment of one character. *)
Lemma undecodable_signature_fails_for_every_algorithm_witness :
  run "eyJhbGciOiJIUzI1NiJ9.aGVsbG8.Z"
      (ProviderFromKey (K_bytes (list_byte_of_string "secret")))
  = (Returns None (Some "Malformed JWS signature: illegal base64 data"),
     {| provider_state := tt;
        trace := [E_GetJWSKey (decoded_header "eyJhbGciOiJIUzI1NiJ9")] |}).
Proof.
  refine (undecodable_signature_fails_for_every_algorithm unit
            base64url_safeDecode
            scan_JSON standin_sha256 standin_sha512 standin_hmac_sha256
            standin_rsa_VerifyPKCS1v15 standin_ecdsa_Verify
            "eyJhbGciOiJIUzI1NiJ9.aGVsbG8.Z" "eyJhbGciOiJIUzI1NiJ9" "aGVsbG8" "Z"
            (ProviderFromKey (K_bytes (list_byte_of_string "secret")))
            initial_world
            {| provider_state := tt;
               trace := [E_GetJWSKey (decoded_header "eyJhbGciOiJIUzI1NiJ9")] |}
            (fst (base64url_safeDecode "eyJhbGciOiJIUzI1NiJ9")) []
            (decoded_header "eyJhbGciOiJIUzI1NiJ9")
            (K_bytes (list_byte_of_string "secret")) "illegal base64 data"
            _ _ _ _ _); reflexivity.
Defined.

(** An RSA key for an HS256 token. *)
Lemma key_of_wrong_type_is_refused_witness :
  run "eyJhbGciOiJIUzI1NiJ9.aGVsbG8.Zg"
      (ProviderFromKey (K_rsa_PublicKey (ref {| rsa_N := 33; rsa_E := 3 |})))
  = (Returns None
       (Some "Expected symmetric ([]byte) key. Got *rsa.PublicKey"),
     {| provider_state := tt;
        trace := [E_GetJWSKey (decoded_header "eyJhbGciOiJIUzI1NiJ9")] |}).
Proof.
  refine (proj1
    (key_of_wrong_type_is_refused unit base64url_safeDecode
       scan_JSON standin_sha256 standin_sha512 standin_hmac_sha256
       standin_rsa_VerifyPKCS1v15 standin_ecdsa_Verify
       "eyJhbGciOiJIUzI1NiJ9.aGVsbG8.Zg" "eyJhbGciOiJIUzI1NiJ9" "aGVsbG8" "Zg"
       (ProviderFromKey (K_rsa_PublicKey (ref {| rsa_N := 33; rsa_E := 3 |})))
       initial_world
       {| provider_state := tt;
          trace := [E_GetJWSKey (decoded_header "eyJhbGciOiJIUzI1NiJ9")] |}
       (fst (base64url_safeDecode "eyJhbGciOiJIUzI1NiJ9"))
       (fst (base64url_safeDecode "Zg"))
       (decoded_header "eyJhbGciOiJIUzI1NiJ9")
       (K_rsa_PublicKey (ref {| rsa_N := 33; rsa_E := 3 |}))
       _ _ _ _ _) _ _); try reflexivity.
  intros b. discriminate.
Defined.

(** An HS256 token with the matching MAC (under the stand-in digest). *)
Lemma HS256_accepts_exactly_the_matching_mac_witness :
  fst (run "eyJhbGciOiJIUzI1NiJ9.aGVsbG8.Zg"
           (ProviderFromKey (K_bytes (list_byte_of_string "secret"))))
  = Returns (Some (list_byte_of_string "hello")) None.
Proof.
  refine (proj1
    (HS256_accepts_exactly_the_matching_mac unit base64url_safeDecode
       scan_JSON standin_sha256 standin_sha512 standin_hmac_sha256
       standin_rsa_VerifyPKCS1v15 standin_ecdsa_Verify
       "eyJhbGciOiJIUzI1NiJ9.aGVsbG8.Zg" "eyJhbGciOiJIUzI1NiJ9" "aGVsbG8" "Zg"
       (ProviderFromKey (K_bytes (list_byte_of_string "secret")))
       initial_world
       {| provider_state := tt;
          trace := [E_GetJWSKey (decoded_header "eyJhbGciOiJIUzI1NiJ9")] |}
       (fst (base64url_safeDecode "eyJhbGciOiJIUzI1NiJ9"))
       (fst (base64url_safeDecode "Zg"))
       (list_byte_of_string "secret")
       (decoded_header "eyJhbGciOiJIUzI1NiJ9")
       _ _ _ _ _ _) _); reflexivity.
Defined.

(** An RS256 token and a private key. *)
Lemma RS256_accepts_exactly_the_valid_signature_witness :
  fst (run "eyJhbGciOiJSUzI1NiJ9.aGVsbG8.AA"
           (ProviderFromKey
              (K_rsa_PrivateKey
                 (ref {| rsa_PublicKey_of := {| rsa_N := 33; rsa_E := 3 |};
                         rsa_D := 7; rsa_Primes := [3%Z; 11%Z] |}))))
  = Returns (Some (list_byte_of_string "hello")) None.
Proof.
  refine (proj1
    (RS256_accepts_exactly_the_valid_signature unit base64url_safeDecode
       scan_JSON standin_sha256 standin_sha512 standin_hmac_sha256
       standin_rsa_VerifyPKCS1v15 standin_ecdsa_Verify
       "eyJhbGciOiJSUzI1NiJ9.aGVsbG8.AA" "eyJhbGciOiJSUzI1NiJ9" "aGVsbG8" "AA"
       (ProviderFromKey
          (K_rsa_PrivateKey
             (ref {| rsa_PublicKey_of := {| rsa_N := 33; rsa_E := 3 |};
                     rsa_D := 7; rsa_Primes := [3%Z; 11%Z] |})))
       initial_world
       {| provider_state := tt;
          trace := [E_GetJWSKey (decoded_header "eyJhbGciOiJSUzI1NiJ9")] |}
       (fst (base64url_safeDecode "eyJhbGciOiJSUzI1NiJ9"))
       (fst (base64url_safeDecode "AA"))
       (decoded_header "eyJhbGciOiJSUzI1NiJ9")
       (K_rsa_PrivateKey
          (ref {| rsa_PublicKey_of := {| rsa_N := 33; rsa_E := 3 |};
                  rsa_D := 7; rsa_Primes := [3%Z; 11%Z] |}))
       {| rsa_N := 33; rsa_E := 3 |}
       _ _ _ _ _ _ _) _); try reflexivity.
  right. eexists. split; reflexivity.
Defined.

(** An ES256 token with a signature of 64 bytes. *)
Lemma ES_accepts_exactly_the_valid_signature_witness :
  fst (run "eyJhbGciOiJFUzI1NiJ9.aGVsbG8.AAAAAAAAAAAAAAAAAAAAAAAAAAAAAAAAAAAAAAAAAPMAAAAAAAAAAAAAAAAAAAAAAAAAAAAAAAAAAAAAAAAAAA"
           (ProviderFromKey (K_ecdsa_PublicKey (ref sample_ecdsa_PublicKey))))
  = Returns (Some (list_byte_of_string "hello")) None.
Proof.
  refine (proj1
    (ES_accepts_exactly_the_valid_signature unit base64url_safeDecode
       scan_JSON standin_sha256 standin_sha512 standin_hmac_sha256
       standin_rsa_VerifyPKCS1v15 standin_ecdsa_Verify
       "eyJhbGciOiJFUzI1NiJ9.aGVsbG8.AAAAAAAAAAAAAAAAAAAAAAAAAAAAAAAAAAAAAAAAAPMAAAAAAAAAAAAAAAAAAAAAAAAAAAAAAAAAAAAAAAAAAA"
       "eyJhbGciOiJFUzI1NiJ9" "aGVsbG8"
       "AAAAAAAAAAAAAAAAAAAAAAAAAAAAAAAAAAAAAAAAAPMAAAAAAAAAAAAAAAAAAAAAAAAAAAAAAAAAAAAAAAAAAA"
       (ProviderFromKey (K_ecdsa_PublicKey (ref sample_ecdsa_PublicKey)))
       initial_world
       {| provider_state := tt;
          trace := [E_GetJWSKey (decoded_header "eyJhbGciOiJFUzI1NiJ9")] |}
       (fst (base64url_safeDecode "eyJhbGciOiJFUzI1NiJ9"))
       (fst (base64url_safeDecode
               "AAAAAAAAAAAAAAAAAAAAAAAAAAAAAAAAAAAAAAAAAPMAAAAAAAAAAAAAAAAAAAAAAAAAAAAAAAAAAAAAAAAAAA"))
       (decoded_header "eyJhbGciOiJFUzI1NiJ9")
       (K_ecdsa_PublicKey (ref sample_ecdsa_PublicKey))
       sample_ecdsa_PublicKey 32 standin_sha256
       _ _ _ _ _ _ _ _) _); try reflexivity.
  - left. repeat split; reflexivity.
  - left. reflexivity.
Defined.

(** An RS256 token and a nil pointer to a private key. *)
Lemma nil_private_key_panics_witness :
  run "eyJhbGciOiJSUzI1NiJ9.aGVsbG8.AA"
      (ProviderFromKey (K_rsa_PrivateKey nil_ptr))
  = (Panics nil_dereference,
     {| provider_state := tt;
        trace := [E_GetJWSKey (decoded_header "eyJhbGciOiJSUzI1NiJ9")] |}).
Proof.
  refine (nil_private_key_panics unit base64url_safeDecode
            scan_JSON standin_sha256 standin_sha512 standin_hmac_sha256
            standin_rsa_VerifyPKCS1v15 standin_ecdsa_Verify
            "eyJhbGciOiJSUzI1NiJ9.aGVsbG8.AA" "eyJhbGciOiJSUzI1NiJ9"
            "aGVsbG8" "AA"
            (ProviderFromKey (K_rsa_PrivateKey nil_ptr)) initial_world
            {| provider_state := tt;
               trace := [E_GetJWSKey (decoded_header "eyJhbGciOiJSUzI1NiJ9")] |}
            (fst (base64url_safeDecode "eyJhbGciOiJSUzI1NiJ9"))
            (fst (base64url_safeDecode "AA"))
            (decoded_header "eyJhbGciOiJSUzI1NiJ9")
            (K_rsa_PrivateKey nil_ptr) _ _ _ _ _ _); try reflexivity.
  left. split; reflexivity.
Defined.


(** A header whose member [kid] is a number. *)
Lemma header_member_of_wrong_type_is_rejected_witness :
  exists e,
    run "eyJhbGciOiJub25lIiwia2lkIjo1fQ.aGVsbG8.AA"
        (ProviderFromKey (K_NoneKeyType NoneKey))
    = (Returns None (Some ("Failed to decode header: " ++ e)), initial_world).
Proof.
  refine (header_member_of_wrong_type_is_rejected unit base64url_safeDecode
            scan_JSON standin_sha256 standin_sha512 standin_hmac_sha256
            standin_rsa_VerifyPKCS1v15 standin_ecdsa_Verify
            "eyJhbGciOiJub25lIiwia2lkIjo1fQ.aGVsbG8.AA"
            "eyJhbGciOiJub25lIiwia2lkIjo1fQ" "aGVsbG8" "AA"
            (ProviderFromKey (K_NoneKeyType NoneKey)) initial_world
            (fst (base64url_safeDecode "eyJhbGciOiJub25lIiwia2lkIjo1fQ"))
            [("alg", J_string "none"); ("kid", J_number "5")]
            "kid" (J_number "5") F_Kid _ _ _ _ _ _ _); try reflexivity.
  - right. left. reflexivity.
  - intros x. discriminate.
  - discriminate.
Defined.


(** * The engine and the objects of earlier calls *)

Lemma update_nth_app :
  forall (A : Type) (l r : list A) (n : nat) (f : A -> A),
    update_nth (length l + n) f (l ++ r) = (l ++ update_nth n f r)%list.
Proof.
  induction l as [|x l IH]; intros r n f; [reflexivity|].
  cbn [length Nat.add app update_nth]. rewrite IH. reflexivity.
Qed.

Lemma nth_app_offset :
  forall (A : Type) (l r : list A) (n : nat) (d : A),
    nth (length l + n) (l ++ r) d = nth n r d.
Proof.
  induction l as [|x l IH]; intros r n d; [reflexivity|].
  cbn [length Nat.add app nth]. apply IH.
Qed.

Lemma update_nth_app0 :
  forall (A : Type) (l r : list A) (f : A -> A),
    update_nth (length l) f (l ++ r) = (l ++ update_nth 0 f r)%list.
Proof.
  intros A l r f. rewrite <- (Nat.add_0_r (length l)) at 1.
  apply update_nth_app.
Qed.

Lemma nth_app0 :
  forall (A : Type) (l r : list A) (d : A),
    nth (length l) (l ++ r) d = nth 0 r d.
Proof.
  intros A l r d. rewrite <- (Nat.add_0_r (length l)) at 1.
  apply nth_app_offset.
Qed.

Section StoredProperties.

Variable S : Type.
Variable safeDecode : string -> list byte * option error.
Variable json_scan : list byte -> JSON + error.
Variable sha256_Sum : list byte -> list byte.
Variable sha512_Sum : list byte -> list byte.
Variable hmac_sha256_Sum : list byte -> list byte -> list byte.
Variable rsa_VerifyPKCS1v15 :
  rsa_PublicKey -> list byte -> list byte -> option error.
Variable ecdsa_Verify : ecdsa_PublicKey -> list byte -> Z -> Z -> bool.

Let engine := VerifyAndDecode S safeDecode json_scan sha256_Sum sha512_Sum
                hmac_sha256_Sum rsa_VerifyPKCS1v15 ecdsa_Verify.
Let stored := Stored.VerifyAndDecode S safeDecode json_scan sha256_Sum
                sha512_Sum hmac_sha256_Sum rsa_VerifyPKCS1v15 ecdsa_Verify.

Lemma nth_update_nth :
  forall (A : Type) (l : list A) (n : nat) (f : A -> A) (x d : A),
    nth_error l n = Some x -> nth n (update_nth n f l) d = f x.
Proof.
  induction l as [|y l IH]; intros n f x d Hn.
  - destruct n; discriminate Hn.
  - destruct n as [|n]; cbn [update_nth nth nth_error] in *.
    + injection Hn as ->. reflexivity.
    + apply IH. exact Hn.
Qed.

(** A hash object keeps what has been written to it: the digest of an
    object of the store that is written to again covers the bytes it
    already held. *)
Lemma written_bytes_accumulate :
  forall (st : Store) (hs : nat) (h : hash_Hash) (s : string) (w : World S),
    nth_error (hash_objects st) hs = Some h ->
    fst (Stored.Sum S sha256_Sum sha512_Sum hmac_sha256_Sum hs
           (Stored.WriteString hs s st) w)
    = digest sha256_Sum sha512_Sum hmac_sha256_Sum (hash_fn h)
        (hash_written h ++ list_byte_of_string s).
Proof.
  intros st hs h s w Hh. unfold Stored.Sum, Stored.WriteString, hash_Sum.
  cbn [hash_objects fst].
  rewrite (nth_update_nth _ _ _ _ h _ Hh). reflexivity.
Qed.

(** A call in the store model returns, and does to the world, what the
    function does in the model without a store, whatever the store holds
    when the call starts: the objects of a call are new ones. *)
Lemma stored_call_in_any_store :
  forall (jws : string) (kp : KeyProvider S) (w : World S) (st : Store),
    fst (stored jws kp w st) = engine jws kp w.
Proof.
  intros jws kp w [hashes ints]. subst stored engine.
  unfold Stored.VerifyAndDecode, VerifyAndDecode.
  unfold Stored.New, Stored.WriteString, Stored.Sum, Stored.NewInt,
    Stored.SetBytes, Stored.IntValue.
  cbn [hash_objects int_objects fst snd].
  repeat (case_split; cbn [fst snd hash_objects int_objects] in * ).
  all: try reflexivity.
  all: repeat match goal with
              | H : Some _ = Some _ |- _ => injection H as ? ? ? ?; subst
              | H : (_, _) = (_, _) |- _ => injection H as ? ?; subst
              end.
  all: repeat (progress
                 (rewrite ?length_app, <- ?app_assoc, ?update_nth_app,
                    ?nth_app_offset, ?update_nth_app0, ?nth_app0 in *;
                  cbn [length app update_nth nth Nat.add
                       hash_objects int_objects] in * )).
  all: congruence.
Qed.

(** C9: the result of a call does not depend on what earlier calls have
    left behind.  Two calls with the same input return the same payload and
    error whenever the Key Provider gives the same key and error in both,
    whatever the store of hash objects and integers each call starts in, in
    particular when the second call starts in the store, and in the world,
    that the first call has left: every object a call reads is one that the
    same call has created. *)
Theorem same_input_same_key_same_result :
  forall (jws : string) (kp : KeyProvider S) (w1 w2 : World S)
         (st1 st2 : Store),
    (forall h, fst (GetJWSKey kp h (provider_state w1))
               = fst (GetJWSKey kp h (provider_state w2))) ->
    fst (fst (stored jws kp w1 st1)) = fst (fst (stored jws kp w2 st2)).
Proof.
  intros jws kp w1 w2 st1 st2 Hsame.
  rewrite (stored_call_in_any_store jws kp w1 st1).
  rewrite (stored_call_in_any_store jws kp w2 st2).
  apply same_key_same_result. exact Hsame.
Qed.

End StoredProperties.

(** Two calls in a row for an HS256 token, with a provider that counts
    its calls, the first one in the empty store: the first call leaves its
    hash object, with the bytes written to it, in the store, and the second
    call returns what the first returned. *)
Lemma same_input_same_key_same_result_witness :
  let stored := Stored.VerifyAndDecode nat base64url_safeDecode scan_JSON
                  standin_sha256 standin_sha512 standin_hmac_sha256
                  standin_rsa_VerifyPKCS1v15 standin_ecdsa_Verify in
  let kp := counting_provider (K_bytes (list_byte_of_string "secret")) in
  let first := stored "eyJhbGciOiJIUzI1NiJ9.aGVsbG8.Zg" kp
                 {| provider_state := 0; trace := [] |} empty_Store in
  let second := stored "eyJhbGciOiJIUzI1NiJ9.aGVsbG8.Zg" kp
                  (snd (fst first)) (snd first) in
  hash_objects (snd first)
  = [ {| hash_fn := HMAC_SHA256 (list_byte_of_string "secret");
         hash_written := list_byte_of_string "eyJhbGciOiJIUzI1NiJ9.aGVsbG8" |} ]
  /\ provider_state (snd (fst first)) = 1
  /\ fst (fst first) = Returns (Some (list_byte_of_string "hello")) None
  /\ fst (fst first) = fst (fst second).
Proof.
  intros stored kp first second.
  split; [reflexivity|]. split; [reflexivity|]. split; [reflexivity|].
  apply (same_input_same_key_same_result nat base64url_safeDecode scan_JSON
           standin_sha256 standin_sha512 standin_hmac_sha256
           standin_rsa_VerifyPKCS1v15 standin_ecdsa_Verify
           "eyJhbGciOiJIUzI1NiJ9.aGVsbG8.Zg" kp
           {| provider_state := 0; trace := [] |} (snd (fst first))
           empty_Store (snd first)).
  intros h. reflexivity.
Defined.

(** An HS256 token: the provider is called once, first, with the decoded
    header, and the one other event of the call is the digest. *)
Lemma provider_is_called_at_most_once_witness :
  exists rest : list Event,
    trace (snd (run "eyJhbGciOiJIUzI1NiJ9.aGVsbG8.Zg"
                    (ProviderFromKey (K_bytes (list_byte_of_string "secret")))))
    = E_GetJWSKey (decoded_header "eyJhbGciOiJIUzI1NiJ9") :: rest
    /\ (forall h', ~ In (E_GetJWSKey h') rest).
Proof.
  destruct (proj2
    (provider_is_called_at_most_once unit base64url_safeDecode scan_JSON
       standin_sha256 standin_sha512 standin_hmac_sha256
       standin_rsa_VerifyPKCS1v15 standin_ecdsa_Verify
       "eyJhbGciOiJIUzI1NiJ9.aGVsbG8.Zg"
       (ProviderFromKey (K_bytes (list_byte_of_string "secret")))
       initial_world) eq_refl eq_refl eq_refl) as (rest & Ht & Hn & _).
  exists rest. split; [exact Ht|exact Hn].
Defined.
